(** * otelutils: configuration translation over the OpenTelemetry Go SDK

    A shallow embedding of the package [github.com/skoved/otelutils].  Two
    snapshots of the package are covered: the current one (config.go, the
    exporter configurations and the resource configuration) and the legacy
    one (the string-keyed initializer with exporters.go), kept in
    [Module Legacy].

    The package is glue over the OpenTelemetry SDK.  The functions of the
    package are transcribed from their Go source.  What the SDK does with the
    options it receives is not part of the package; the few SDK behaviours the
    statements need (option application, the W3C traceparent encoding) are
    collected in modules named after the Go packages they stand for, and the
    behaviours that depend on the machine (resource detection, dialling, file
    creation, flushing) are fields of the record [Sdk], over which every
    statement is quantified. *)

From Stdlib Require Import ZArith NArith List String Ascii Bool Lia.
From Stdlib.Strings Require Import Byte.
From stdpp Require Import base gmap strings list.
Import ListNotations.

Local Open Scope string_scope.
Local Open Scope list_scope.

(** ** Go vocabulary *)

(** A Go [error] value, identified by its message ([err.Error()]). *)
Definition error := string.

(** The Go return convention [(T, error)]. *)
Inductive result (A : Type) : Type :=
| Ok (a : A)
| Err (e : error).
Arguments Ok {A} a.
Arguments Err {A} e.

(** What a call does: it returns, or the goroutine panics. *)
Inductive outcome (A : Type) : Type :=
| Returned (a : A)
| Panicked.
Arguments Returned {A} a.
Arguments Panicked {A}.

(** [time.Duration]: a signed count of nanoseconds. *)
Definition Duration := Z.
Definition Second : Duration := 1000000000%Z.
Definition Minute : Duration := (60 * Second)%Z.

(** [io.Writer] values the package meets. *)
Inductive io_Writer : Type :=
| os_Stdout
| os_Stderr
| os_File (name : string)
| other_Writer (id : nat).

(** Opaque values of the gRPC library. *)
Inductive grpc_DialOption : Type := DialOption (id : nat).
Inductive grpc_ClientConn : Type := ClientConn (target : string).
Inductive credentials_TransportCredentials : Type := TransportCredentials (id : nat).

(** [attribute.KeyValue], with string values. *)
Definition attribute_KeyValue : Type := string * string.

(** [fmt.Sprintf] at the two formats the package uses. *)
Definition Sprintf_s_eq_s (a b : string) : string := a ++ "=" ++ b.
Definition Sprintf_not_implemented (kind : string) : string :=
  "Exporter type '" ++ kind ++ "' is not implemented".

(** The two shapes every option builder of the package is made of:
    [if cond { options = append(options, x) }] and, for a pointer field,
    [if p != nil { options = append(options, f(p)) }]. *)
Definition appendIf {A : Type} (cond : bool) (x : A) (options : list A) : list A :=
  if cond then options ++ [x] else options.

Definition appendSome {A B : Type} (p : option A) (f : A -> B) (options : list B) : list B :=
  match p with
  | Some v => options ++ [f v]
  | None => options
  end.

(** ** SDK: go.opentelemetry.io/otel/exporters/stdout/stdouttrace *)

Module stdouttrace.

Inductive Option : Type :=
| WithWriter (w : io_Writer)
| WithPrettyPrint
| WithoutTimestamps.

Record config : Type := {
  Writer : io_Writer;
  PrettyPrint : bool;
  Timestamps : bool
}.

(** The SDK's defaults: standard output, compact JSON, timestamps kept. *)
Definition defaultConfig : config :=
  {| Writer := os_Stdout; PrettyPrint := false; Timestamps := true |}.

Definition apply (cfg : config) (o : Option) : config :=
  match o with
  | WithWriter w =>
      {| Writer := w; PrettyPrint := PrettyPrint cfg; Timestamps := Timestamps cfg |}
  | WithPrettyPrint =>
      {| Writer := Writer cfg; PrettyPrint := true; Timestamps := Timestamps cfg |}
  | WithoutTimestamps =>
      {| Writer := Writer cfg; PrettyPrint := PrettyPrint cfg; Timestamps := false |}
  end.

Definition newConfig (options : list Option) : config :=
  fold_left apply options defaultConfig.

End stdouttrace.

(** ** SDK: go.opentelemetry.io/otel/exporters/otlp/otlptrace/otlptracegrpc *)

Module otlptracegrpc.

Record RetryConfig : Type := {
  Enabled : bool;
  InitialInterval : Duration;
  MaxInterval : Duration;
  MaxElapsedTime : Duration
}.

(** The exporter's built-in backoff policy: retry after 5 seconds, back off
    exponentially up to 30 seconds, give up after one minute. *)
Definition DefaultRetryConfig : RetryConfig :=
  {| Enabled := true;
     InitialInterval := (5 * Second)%Z;
     MaxInterval := (30 * Second)%Z;
     MaxElapsedTime := Minute |}.

Inductive Option : Type :=
| WithCompressor (compressor : string)
| WithDialOption (opts : list grpc_DialOption)
| WithEndpoint (endpoint : string)
| WithGRPCConn (conn : grpc_ClientConn)
| WithHeaders (headers : gmap string string)
| WithInsecure
| WithReconnectionPeriod (rp : Duration)
| WithRetry (settings : RetryConfig)
| WithServiceConfig (serviceConfig : string)
| WithTLSCredentials (creds : credentials_TransportCredentials)
| WithTimeout (duration : Duration).

(** How a connection is dialled when the SDK owns it. *)
Record dialing : Type := {
  Endpoint : string;
  Insecure : bool;
  GRPCCredentials : option credentials_TransportCredentials;
  Compression : string;
  ServiceConfig : string;
  ReconnectionPeriod : Duration;
  DialOptions : list grpc_DialOption
}.

Record config : Type := {
  Dialing : dialing;
  GRPCConn : option grpc_ClientConn;
  Headers : gmap string string;
  Retry : RetryConfig;
  Timeout : Duration
}.

Definition defaultDialing : dialing :=
  {| Endpoint := "localhost:4317"; Insecure := false; GRPCCredentials := None;
     Compression := ""; ServiceConfig := ""; ReconnectionPeriod := 0%Z;
     DialOptions := [] |}.

Definition defaultConfig : config :=
  {| Dialing := defaultDialing; GRPCConn := None; Headers := ∅;
     Retry := DefaultRetryConfig; Timeout := (10 * Second)%Z |}.

Definition withDialing (f : dialing -> dialing) (cfg : config) : config :=
  {| Dialing := f (Dialing cfg); GRPCConn := GRPCConn cfg; Headers := Headers cfg;
     Retry := Retry cfg; Timeout := Timeout cfg |}.

Definition apply (cfg : config) (o : Option) : config :=
  match o with
  | WithCompressor c =>
      withDialing (fun d =>
        {| Endpoint := Endpoint d; Insecure := Insecure d;
           GRPCCredentials := GRPCCredentials d; Compression := c;
           ServiceConfig := ServiceConfig d;
           ReconnectionPeriod := ReconnectionPeriod d;
           DialOptions := DialOptions d |}) cfg
  | WithDialOption opts =>
      withDialing (fun d =>
        {| Endpoint := Endpoint d; Insecure := Insecure d;
           GRPCCredentials := GRPCCredentials d; Compression := Compression d;
           ServiceConfig := ServiceConfig d;
           ReconnectionPeriod := ReconnectionPeriod d;
           DialOptions := opts |}) cfg
  | WithEndpoint e =>
      withDialing (fun d =>
        {| Endpoint := e; Insecure := Insecure d;
           GRPCCredentials := GRPCCredentials d; Compression := Compression d;
           ServiceConfig := ServiceConfig d;
           ReconnectionPeriod := ReconnectionPeriod d;
           DialOptions := DialOptions d |}) cfg
  | WithGRPCConn c =>
      {| Dialing := Dialing cfg; GRPCConn := Some c; Headers := Headers cfg;
         Retry := Retry cfg; Timeout := Timeout cfg |}
  | WithHeaders h =>
      {| Dialing := Dialing cfg; GRPCConn := GRPCConn cfg; Headers := h;
         Retry := Retry cfg; Timeout := Timeout cfg |}
  | WithInsecure =>
      withDialing (fun d =>
        {| Endpoint := Endpoint d; Insecure := true;
           GRPCCredentials := GRPCCredentials d; Compression := Compression d;
           ServiceConfig := ServiceConfig d;
           ReconnectionPeriod := ReconnectionPeriod d;
           DialOptions := DialOptions d |}) cfg
  | WithReconnectionPeriod rp =>
      withDialing (fun d =>
        {| Endpoint := Endpoint d; Insecure := Insecure d;
           GRPCCredentials := GRPCCredentials d; Compression := Compression d;
           ServiceConfig := ServiceConfig d;
           ReconnectionPeriod := rp;
           DialOptions := DialOptions d |}) cfg
  | WithRetry rc =>
      {| Dialing := Dialing cfg; GRPCConn := GRPCConn cfg; Headers := Headers cfg;
         Retry := rc; Timeout := Timeout cfg |}
  | WithServiceConfig sc =>
      withDialing (fun d =>
        {| Endpoint := Endpoint d; Insecure := Insecure d;
           GRPCCredentials := GRPCCredentials d; Compression := Compression d;
           ServiceConfig := sc;
           ReconnectionPeriod := ReconnectionPeriod d;
           DialOptions := DialOptions d |}) cfg
  | WithTLSCredentials creds =>
      withDialing (fun d =>
        {| Endpoint := Endpoint d; Insecure := Insecure d;
           GRPCCredentials := Some creds; Compression := Compression d;
           ServiceConfig := ServiceConfig d;
           ReconnectionPeriod := ReconnectionPeriod d;
           DialOptions := DialOptions d |}) cfg
  | WithTimeout t =>
      {| Dialing := Dialing cfg; GRPCConn := GRPCConn cfg; Headers := Headers cfg;
         Retry := Retry cfg; Timeout := t |}
  end.

Definition newConfig (options : list Option) : config :=
  fold_left apply options defaultConfig.

(** Modelled from the spec: the connection an exporter of the SDK sends on,
    which the SDK decides and not the package.  An existing connection handle
    takes precedence over every other connection-related field; without one
    the SDK dials from the dialling settings. *)
Inductive connection : Type :=
| Supplied (conn : grpc_ClientConn)
| Dialled (d : dialing).

Record client : Type := {
  conn : connection;
  metadata : gmap string string;
  exportTimeout : Duration;
  retry : RetryConfig
}.

(** Modelled from the spec: [otlptracegrpc.NewClient], the SDK's resolution
    of its options into a client; a supplied connection is used as it is and
    the dialling settings are then left aside. *)
Definition NewClient (options : list Option) : client :=
  let cfg := newConfig options in
  {| conn := match GRPCConn cfg with
             | Some c => Supplied c
             | None => Dialled (Dialing cfg)
             end;
     metadata := Headers cfg;
     exportTimeout := Timeout cfg;
     retry := Retry cfg |}.

End otlptracegrpc.

(** ** SDK: go.opentelemetry.io/otel/sdk/resource and semconv/v1.12.0 *)

Module semconv.
Definition SchemaURL : string := "https://opentelemetry.io/schemas/1.12.0".
Definition ServiceNameKey : string := "service.name".
Definition ServiceVersionKey : string := "service.version".
End semconv.

Module resource.

Inductive Detector : Type := detector (id : nat).

Inductive Option : Type :=
| WithSchemaURL (schemaURL : string)
| WithTelemetrySDK
| WithAttributes (attributes : list attribute_KeyValue)
| WithContainer
| WithContainerID
| WithDetectors (detectors : list Detector)
| WithFromEnv
| WithHost
| WithOS
| WithOSDescription
| WithOSType
| WithProcess
| WithProcessCommandArgs
| WithProcessExecutableName
| WithProcessExecutablePath
| WithProcessOwner
| WithProcessPID
| WithProcessRuntimeDescription
| WithProcessRuntimeName
| WithProcessRuntimeVersion.

Record Resource : Type := {
  schemaURL : string;
  attrs : list attribute_KeyValue
}.

Definition NewWithAttributes (url : string) (kvs : list attribute_KeyValue) : Resource :=
  {| schemaURL := url; attrs := kvs |}.

End resource.


(** ** Go standard library: encoding/hex and strings *)

Module hex.

Definition hextable : string := "0123456789abcdef".

Definition digit (n : N) : ascii :=
  match String.get (N.to_nat n) hextable with
  | Some c => c
  | None => "0"%char
  end.

(** [dst[j] = hextable[v>>4]; dst[j+1] = hextable[v&0x0f]] *)
Definition encodeByte (v : byte) : string :=
  let n := Byte.to_N v in
  String (digit (N.shiftr n 4)) (String (digit (N.land n 15)) EmptyString).

Fixpoint EncodeToString (src : list byte) : string :=
  match src with
  | [] => EmptyString
  | v :: rest => encodeByte v ++ EncodeToString rest
  end.

(** Lower-case digits only, as the trace-context grammar has them. *)
Definition fromHexChar (c : ascii) : option N :=
  let n := N_of_ascii c in
  if N.leb 48 n && N.leb n 57 then Some (n - 48)%N
  else if N.leb 97 n && N.leb n 102 then Some (n - 97 + 10)%N
  else None.

Fixpoint DecodeString (s : string) : option (list byte) :=
  match s with
  | EmptyString => Some []
  | String _ EmptyString => None
  | String c1 (String c2 rest) =>
      match fromHexChar c1, fromHexChar c2, DecodeString rest with
      | Some a, Some b, Some bs =>
          match Byte.of_N (a * 16 + b) with
          | Some v => Some (v :: bs)
          | None => None
          end
      | _, _, _ => None
      end
  end.

End hex.

Module strings.

(** [strings.ToLower] on ASCII text. *)
Definition lowerChar (c : ascii) : ascii :=
  let n := N_of_ascii c in
  if N.leb 65 n && N.leb n 90 then ascii_of_N (n + 32) else c.

Fixpoint ToLower (s : string) : string :=
  match s with
  | EmptyString => EmptyString
  | String c rest => String (lowerChar c) (ToLower rest)
  end.

End strings.

(** ** SDK: go.opentelemetry.io/otel/trace *)

Module trace.

(** [TraceID] is a [[16]byte] and [SpanID] a [[8]byte]; [wellSized] says so. *)
Record SpanContext : Type := {
  TraceID : list byte;
  SpanID : list byte;
  TraceFlags : byte;
  TraceState : string;
  Remote : bool
}.

Definition wellSized (sc : SpanContext) : Prop :=
  length (TraceID sc) = 16 /\ length (SpanID sc) = 8.

Definition FlagsSampled : byte := Byte.x01.

Definition byte_and (a b : byte) : byte :=
  match Byte.of_N (N.land (Byte.to_N a) (Byte.to_N b)) with
  | Some v => v
  | None => Byte.x00
  end.

(** An identifier is valid when it is not all zeroes. *)
Definition nonZero (id : list byte) : bool :=
  existsb (fun b => negb (Byte.eqb b Byte.x00)) id.

Definition IsValid (sc : SpanContext) : bool :=
  nonZero (TraceID sc) && nonZero (SpanID sc).

(** The zero value [SpanContext{}]. *)
Definition zero : SpanContext :=
  {| TraceID := repeat Byte.x00 16; SpanID := repeat Byte.x00 8;
     TraceFlags := Byte.x00; TraceState := EmptyString; Remote := false |}.

End trace.

(** [context.Context], reduced to what the propagators and the exporters
    read: the span context of the current span, if any, the baggage in its
    header form, the time left until the deadline, if there is one, and
    whether the context has been cancelled. *)
Record Context : Type := {
  ctx_span : option trace.SpanContext;
  ctx_baggage : string;
  ctx_deadline : option Duration;
  ctx_cancelled : bool
}.

Definition context_Background : Context :=
  {| ctx_span := None; ctx_baggage := EmptyString;
     ctx_deadline := None; ctx_cancelled := false |}.

(** [context.WithTimeout(parent, timeout)]: the earlier of the parent's
    deadline and the new one. *)
Definition context_WithTimeout (parent : Context) (timeout : Duration) : Context :=
  {| ctx_span := ctx_span parent;
     ctx_baggage := ctx_baggage parent;
     ctx_deadline :=
       Some (match ctx_deadline parent with
             | Some d => Z.min d timeout
             | None => timeout
             end);
     ctx_cancelled := ctx_cancelled parent |}.

Definition SpanContextFromContext (ctx : Context) : trace.SpanContext :=
  match ctx_span ctx with
  | Some sc => sc
  | None => trace.zero
  end.

Definition ContextWithRemoteSpanContext (parent : Context) (sc : trace.SpanContext) : Context :=
  {| ctx_span := Some {| trace.TraceID := trace.TraceID sc;
                         trace.SpanID := trace.SpanID sc;
                         trace.TraceFlags := trace.TraceFlags sc;
                         trace.TraceState := trace.TraceState sc;
                         trace.Remote := true |};
     ctx_baggage := ctx_baggage parent;
     ctx_deadline := ctx_deadline parent;
     ctx_cancelled := ctx_cancelled parent |}.

(** ** SDK: go.opentelemetry.io/otel/propagation *)

Module propagation.

(** [MapCarrier] is a [map[string]string]. *)
Definition Get (carrier : gmap string string) (key : string) : string :=
  default EmptyString (carrier !! key).

Definition traceparentHeader : string := "traceparent".
Definition tracestateHeader : string := "tracestate".
Definition baggageHeader : string := "baggage".

Inductive Propagator : Type :=
| TraceContext
| Baggage.

(** The propagators of the SDK.  [otel.GetTextMapPropagator] returns the
    no-op propagator until [otel.SetTextMapPropagator] has been called. *)
Inductive TextMapPropagator : Type :=
| NoopTextMapPropagator
| NewCompositeTextMapPropagator (ps : list Propagator).

(** Modelled from the spec: the value the SDK's trace-context propagator
    writes, the traceparent header of the W3C trace-context textual encoding,
    version 00:
    [00-<trace id, 32 hex digits>-<span id, 16 hex digits>-<flags, 2 hex digits>]. *)
Definition traceparent (sc : trace.SpanContext) : string :=
  "00" ++ "-" ++ hex.EncodeToString (trace.TraceID sc)
       ++ "-" ++ hex.EncodeToString (trace.SpanID sc)
       ++ "-" ++ hex.EncodeToString [trace.byte_and (trace.TraceFlags sc) trace.FlagsSampled].

(** Modelled from the spec: [TraceContext.Inject] of the SDK; a context
    without a valid span context leaves the carrier as it is. *)
Definition TraceContext_Inject (ctx : Context) (carrier : gmap string string)
  : gmap string string :=
  let sc := SpanContextFromContext ctx in
  if negb (trace.IsValid sc) then carrier
  else
    let carrier :=
      if String.eqb (trace.TraceState sc) EmptyString then carrier
      else <[tracestateHeader := trace.TraceState sc]> carrier in
    <[traceparentHeader := traceparent sc]> carrier.

(** The first [n] characters of [s] and what follows them. *)
Fixpoint cut (n : nat) (s : string) : option (string * string) :=
  match n, s with
  | O, _ => Some (EmptyString, s)
  | S _, EmptyString => None
  | S n', String c rest =>
      match cut n' rest with
      | Some (p, r) => Some (String c p, r)
      | None => None
      end
  end.

Definition dash (s : string) : option string :=
  match s with
  | String "-"%char rest => Some rest
  | _ => None
  end.

(** Modelled from the spec: the SDK's reading of a traceparent header in the
    W3C trace-context textual encoding: four fields of 2, 32, 16 and 2
    lower-case hex digits separated by dashes; version ff is refused, and so
    are flags above 02 in version 00. *)
Definition parseTraceparent (h tracestate : string) : option trace.SpanContext :=
  '(ver, r) ← cut 2 h;
  r ← dash r;
  '(tid, r) ← cut 32 r;
  r ← dash r;
  '(sid, r) ← cut 16 r;
  r ← dash r;
  '(fl, r) ← cut 2 r;
  if negb (String.eqb r EmptyString) then None
  else
    ver ← hex.DecodeString ver;
    tid ← hex.DecodeString tid;
    sid ← hex.DecodeString sid;
    fl ← hex.DecodeString fl;
    match ver, fl with
    | [v], [f] =>
        if Byte.eqb v Byte.xff then None
        else if Byte.eqb v Byte.x00 && N.ltb 2 (Byte.to_N f) then None
        else Some {| trace.TraceID := tid; trace.SpanID := sid;
                     trace.TraceFlags := trace.byte_and f trace.FlagsSampled;
                     trace.TraceState := tracestate; trace.Remote := true |}
    | _, _ => None
    end.

(** Modelled from the spec: [TraceContext.Extract] of the SDK; a missing,
    malformed or all-zero header yields the zero span context. *)
Definition extract (carrier : gmap string string) : trace.SpanContext :=
  let h := Get carrier traceparentHeader in
  if String.eqb h EmptyString then trace.zero
  else
    match parseTraceparent h (Get carrier tracestateHeader) with
    | Some sc => if trace.IsValid sc then sc else trace.zero
    | None => trace.zero
    end.

Definition TraceContext_Extract (ctx : Context) (carrier : gmap string string) : Context :=
  let sc := extract carrier in
  if negb (trace.IsValid sc) then ctx
  else ContextWithRemoteSpanContext ctx sc.

Definition Baggage_Inject (ctx : Context) (carrier : gmap string string)
  : gmap string string :=
  if String.eqb (ctx_baggage ctx) EmptyString then carrier
  else <[baggageHeader := ctx_baggage ctx]> carrier.

Definition Baggage_Extract (parent : Context) (carrier : gmap string string) : Context :=
  let bStr := Get carrier baggageHeader in
  if String.eqb bStr EmptyString then parent
  else {| ctx_span := ctx_span parent; ctx_baggage := bStr;
          ctx_deadline := ctx_deadline parent;
          ctx_cancelled := ctx_cancelled parent |}.

Definition inject1 (ctx : Context) (carrier : gmap string string) (p : Propagator)
  : gmap string string :=
  match p with
  | TraceContext => TraceContext_Inject ctx carrier
  | Baggage => Baggage_Inject ctx carrier
  end.

Definition extract1 (carrier : gmap string string) (ctx : Context) (p : Propagator)
  : Context :=
  match p with
  | TraceContext => TraceContext_Extract ctx carrier
  | Baggage => Baggage_Extract ctx carrier
  end.

Definition Inject (p : TextMapPropagator) (ctx : Context) (carrier : gmap string string)
  : gmap string string :=
  match p with
  | NoopTextMapPropagator => carrier
  | NewCompositeTextMapPropagator ps => fold_left (inject1 ctx) ps carrier
  end.

Definition Extract (p : TextMapPropagator) (ctx : Context) (carrier : gmap string string)
  : Context :=
  match p with
  | NoopTextMapPropagator => ctx
  | NewCompositeTextMapPropagator ps => fold_left (extract1 carrier) ps ctx
  end.

End propagation.


(** ** SDK: exporters, tracer providers and the machine *)

Inductive SpanExporter : Type :=
| StdoutExporter (cfg : stdouttrace.config)
| OtlpExporter (c : otlptracegrpc.client).

(** [sdkTrace.NewTracerProvider(WithBatcher(exp), WithResource(resource))] *)
Record TracerProvider : Type := {
  tp_exporter : SpanExporter;
  tp_resource : resource.Resource
}.

Definition NewTracerProvider (exp : SpanExporter) (res : resource.Resource) : TracerProvider :=
  {| tp_exporter := exp; tp_resource := res |}.

(** Calls that act outside the package's own variables, in call order. *)
Inductive Event : Type :=
| EvCreate (name : string)
| EvForceFlush (p : TracerProvider)
| EvShutdown (p : TracerProvider).

(** What the SDK and the operating system answer.  Nothing is assumed about
    these answers. *)
Record Sdk : Type := {
  resource_New : list resource.Option -> result resource.Resource;
  resource_Default : resource.Resource;
  resource_Merge : resource.Resource -> resource.Resource -> result resource.Resource;
  stdouttrace_failure : stdouttrace.config -> option error;
  otlptrace_failure : Context -> otlptracegrpc.client -> option error;
  os_Create_failure : string -> option error;
  viper_GetString : string -> string;
  ForceFlush_result : TracerProvider -> list Event -> option error;
  Shutdown_result : TracerProvider -> list Event -> option error
}.

(** [stdouttrace.New(options...)] *)
Definition stdouttrace_New (sdk : Sdk) (options : list stdouttrace.Option)
  : result SpanExporter :=
  let cfg := stdouttrace.newConfig options in
  match stdouttrace_failure sdk cfg with
  | Some err => Err err
  | None => Ok (StdoutExporter cfg)
  end.

(** [otlptrace.New(ctx, client)]: starts the client under [ctx]; the client
    dials unless a connection was supplied. *)
Definition otlptrace_New (sdk : Sdk) (ctx : Context) (c : otlptracegrpc.client)
  : result SpanExporter :=
  match otlptrace_failure sdk ctx c with
  | Some err => Err err
  | None => Ok (OtlpExporter c)
  end.

(** [otlptracegrpc.New(ctx, options...)] *)
Definition otlptracegrpc_New (sdk : Sdk) (ctx : Context)
  (options : list otlptracegrpc.Option) : result SpanExporter :=
  otlptrace_New sdk ctx (otlptracegrpc.NewClient options).

(** ** The package: exporter configurations *)

Module ConsoleSpanExporterConfig.

Record t : Type := {
  PrettyPrint : bool;
  Timestamps : bool;
  Writer : option io_Writer
}.

Definition getOptions (c : t) : list stdouttrace.Option :=
  let options := [] in
  let options := appendIf (PrettyPrint c) stdouttrace.WithPrettyPrint options in
  let options := appendIf (negb (Timestamps c)) stdouttrace.WithoutTimestamps options in
  let options :=
    match Writer c with
    | None => options ++ [stdouttrace.WithWriter os_Stdout]
    | Some w => options ++ [stdouttrace.WithWriter w]
    end in
  options.

Definition newSpanExporter (sdk : Sdk) (c : t) (ctx : Context) : result SpanExporter :=
  stdouttrace_New sdk (getOptions c).

End ConsoleSpanExporterConfig.

(** [RetryOption] is a function on a pointer to [otlptracegrpc.RetryConfig]:
    the pointed-to configuration before the call, and after it.  A value of
    the Go type may also be nil; where the package stores retry options, a
    nil one is [None] and a function is [Some] of it. *)
Definition RetryOption : Type :=
  otlptracegrpc.RetryConfig -> otlptracegrpc.RetryConfig.

Definition RetryEnabled (enabled : bool) : RetryOption :=
  fun rc =>
    {| otlptracegrpc.Enabled := enabled;
       otlptracegrpc.InitialInterval := otlptracegrpc.InitialInterval rc;
       otlptracegrpc.MaxInterval := otlptracegrpc.MaxInterval rc;
       otlptracegrpc.MaxElapsedTime := otlptracegrpc.MaxElapsedTime rc |}.

Definition RetryInitialInterval (interval : Duration) : RetryOption :=
  fun rc =>
    {| otlptracegrpc.Enabled := otlptracegrpc.Enabled rc;
       otlptracegrpc.InitialInterval := interval;
       otlptracegrpc.MaxInterval := otlptracegrpc.MaxInterval rc;
       otlptracegrpc.MaxElapsedTime := otlptracegrpc.MaxElapsedTime rc |}.

Definition RetryMaxInterval (interval : Duration) : RetryOption :=
  fun rc =>
    {| otlptracegrpc.Enabled := otlptracegrpc.Enabled rc;
       otlptracegrpc.InitialInterval := otlptracegrpc.InitialInterval rc;
       otlptracegrpc.MaxInterval := interval;
       otlptracegrpc.MaxElapsedTime := otlptracegrpc.MaxElapsedTime rc |}.

Definition RetryMaxElapsedTime (interval : Duration) : RetryOption :=
  fun rc =>
    {| otlptracegrpc.Enabled := otlptracegrpc.Enabled rc;
       otlptracegrpc.InitialInterval := otlptracegrpc.InitialInterval rc;
       otlptracegrpc.MaxInterval := otlptracegrpc.MaxInterval rc;
       otlptracegrpc.MaxElapsedTime := interval |}.

Module OtlpGrpcSpanExporterConfig.

Record t : Type := {
  Compressor : string;
  DialOptions : list grpc_DialOption;
  Endpoint : string;
  GrpcConn : option grpc_ClientConn;
  Headers : gmap string string;
  Insecure : bool;
  ReconnectionPeriod : Duration;
  RetryOptions : list (option RetryOption);
  ServiceConfig : string;
  TlsCredentials : option credentials_TransportCredentials;
  Timeout : Duration
}.

(** The zero value [otlptracegrpc.RetryConfig{}]. *)
Definition zeroRetryConfig : otlptracegrpc.RetryConfig :=
  {| otlptracegrpc.Enabled := false;
     otlptracegrpc.InitialInterval := 0%Z;
     otlptracegrpc.MaxInterval := 0%Z;
     otlptracegrpc.MaxElapsedTime := 0%Z |}.

(** [for _, option := range o.RetryOptions { option(&retryConfig) }]:
    calling a nil option panics. *)
Fixpoint applyRetryOptions (options : list (option RetryOption))
  (retryConfig : otlptracegrpc.RetryConfig) : outcome otlptracegrpc.RetryConfig :=
  match options with
  | [] => Returned retryConfig
  | None :: _ => Panicked
  | Some option :: rest => applyRetryOptions rest (option retryConfig)
  end.

Definition getOptions (o : t) : outcome (list otlptracegrpc.Option) :=
  let options := [] in
  let options :=
    appendIf (negb (String.eqb (Compressor o) EmptyString))
      (otlptracegrpc.WithCompressor (Compressor o)) options in
  let options :=
    appendIf (Nat.ltb 0 (length (DialOptions o)))
      (otlptracegrpc.WithDialOption (DialOptions o)) options in
  let options :=
    appendIf (negb (String.eqb (Endpoint o) EmptyString))
      (otlptracegrpc.WithEndpoint (Endpoint o)) options in
  let options := appendSome (GrpcConn o) otlptracegrpc.WithGRPCConn options in
  let options :=
    appendIf (Nat.ltb 0 (size (Headers o)))
      (otlptracegrpc.WithHeaders (Headers o)) options in
  let options := appendIf (Insecure o) otlptracegrpc.WithInsecure options in
  let options :=
    appendIf (negb (Z.eqb (ReconnectionPeriod o) 0))
      (otlptracegrpc.WithReconnectionPeriod (ReconnectionPeriod o)) options in
  match
    (if Nat.ltb 0 (length (RetryOptions o))
     then
       match applyRetryOptions (RetryOptions o) zeroRetryConfig with
       | Returned retryConfig =>
           Returned (options ++ [otlptracegrpc.WithRetry retryConfig])
       | Panicked => Panicked
       end
     else Returned options)
  with
  | Panicked => Panicked
  | Returned options =>
      let options :=
        appendIf (negb (String.eqb (ServiceConfig o) EmptyString))
          (otlptracegrpc.WithServiceConfig (ServiceConfig o)) options in
      let options :=
        appendSome (TlsCredentials o) otlptracegrpc.WithTLSCredentials options in
      let options :=
        appendIf (negb (Z.eqb (Timeout o) 0))
          (otlptracegrpc.WithTimeout (Timeout o)) options in
      Returned options
  end.

Definition newSpanExporter (sdk : Sdk) (o : t) (ctx : Context)
  : outcome (result SpanExporter) :=
  match getOptions o with
  | Panicked => Panicked
  | Returned options => Returned (otlptracegrpc_New sdk ctx options)
  end.

End OtlpGrpcSpanExporterConfig.

(** The interface [SpanExporterConfig]: its method is unexported, so the two
    configurations of the package are its only implementations. *)
Inductive SpanExporterConfig : Type :=
| Console (c : ConsoleSpanExporterConfig.t)
| OtlpGrpc (o : OtlpGrpcSpanExporterConfig.t).

Definition newSpanExporter (sdk : Sdk) (cfg : SpanExporterConfig) (ctx : Context)
  : outcome (result SpanExporter) :=
  match cfg with
  | Console c => Returned (ConsoleSpanExporterConfig.newSpanExporter sdk c ctx)
  | OtlpGrpc o => OtlpGrpcSpanExporterConfig.newSpanExporter sdk o ctx
  end.


(** ** The package: resource configuration *)

Module ResourceConfig.

Record t : Type := {
  Attributes : list attribute_KeyValue;
  Container : bool;
  ContainerID : bool;
  detectors : list resource.Detector;
  FromEnv : bool;
  Host : bool;
  OS : bool;
  OSDescription : bool;
  OSType : bool;
  Process : bool;
  ProcessCommandArgs : bool;
  ProcessExecutableName : bool;
  ProcessExecutablePath : bool;
  ProcessOwner : bool;
  ProcessPID : bool;
  ProcessRuntimeDescription : bool;
  ProcessRuntimeName : bool;
  ProcessRuntimeVersion : bool
}.

Definition getOptions (r : t) : list resource.Option :=
  let options := [] in
  let options := options ++ [resource.WithSchemaURL semconv.SchemaURL] in
  let options := options ++ [resource.WithTelemetrySDK] in
  let options :=
    appendIf (Nat.ltb 0 (length (Attributes r)))
      (resource.WithAttributes (Attributes r)) options in
  let options := appendIf (Container r) resource.WithContainer options in
  let options := appendIf (ContainerID r) resource.WithContainerID options in
  let options :=
    appendIf (Nat.ltb 0 (length (detectors r)))
      (resource.WithDetectors (detectors r)) options in
  let options := appendIf (FromEnv r) resource.WithFromEnv options in
  let options := appendIf (Host r) resource.WithHost options in
  let options := appendIf (OS r) resource.WithOS options in
  let options := appendIf (OSDescription r) resource.WithOSDescription options in
  let options := appendIf (OSType r) resource.WithOSType options in
  let options := appendIf (Process r) resource.WithProcess options in
  let options :=
    appendIf (ProcessCommandArgs r) resource.WithProcessCommandArgs options in
  let options :=
    appendIf (ProcessExecutableName r) resource.WithProcessExecutableName options in
  let options :=
    appendIf (ProcessExecutablePath r) resource.WithProcessExecutablePath options in
  let options := appendIf (ProcessOwner r) resource.WithProcessOwner options in
  let options := appendIf (ProcessPID r) resource.WithProcessPID options in
  let options :=
    appendIf (ProcessRuntimeDescription r) resource.WithProcessRuntimeDescription
      options in
  let options :=
    appendIf (ProcessRuntimeName r) resource.WithProcessRuntimeName options in
  let options :=
    appendIf (ProcessRuntimeVersion r) resource.WithProcessRuntimeVersion options in
  options.

Definition newResource (sdk : Sdk) (r : t) (ctx : Context) : result resource.Resource :=
  match resource_New sdk (getOptions r) with
  | Err err => Err err
  | Ok newResource => resource_Merge sdk (resource_Default sdk) newResource
  end.

End ResourceConfig.

(** ** The package: process-wide state *)

(** The package variables [tp] and [serviceName], the two registrations the
    package makes with the [otel] API, and the calls made so far. *)
Record State : Type := {
  tp : option TracerProvider;
  serviceName : string;
  otel_TracerProvider : option TracerProvider;
  otel_TextMapPropagator : propagation.TextMapPropagator;
  events : list Event
}.

(** The state of a process that has not called the package yet. *)
Definition initialState : State :=
  {| tp := None; serviceName := EmptyString; otel_TracerProvider := None;
     otel_TextMapPropagator := propagation.NoopTextMapPropagator; events := [] |}.

Definition fileExporter : string := "file".
Definition consoleExporter : string := "console".
Definition otlpExporter : string := "otlp".

Definition traceParent : string := "TRACEPARENT".

(** [tp = ...; otel.SetTracerProvider(tp); otel.SetTextMapPropagator(...)] *)
Definition register (exp : SpanExporter) (res : resource.Resource) (s : State) : State :=
  let p := NewTracerProvider exp res in
  {| tp := Some p;
     serviceName := serviceName s;
     otel_TracerProvider := Some p;
     otel_TextMapPropagator :=
       propagation.NewCompositeTextMapPropagator
         [propagation.TraceContext; propagation.Baggage];
     events := events s |}.

Definition logEvent (ev : Event) (s : State) : State :=
  {| tp := tp s; serviceName := serviceName s;
     otel_TracerProvider := otel_TracerProvider s;
     otel_TextMapPropagator := otel_TextMapPropagator s;
     events := events s ++ [ev] |}.

(** [p.ForceFlush(ctx)] and [p.Shutdown(ctx)] on a provider that exists. *)
Definition ForceFlush (sdk : Sdk) (p : TracerProvider) (s : State) : option error * State :=
  (ForceFlush_result sdk p (events s), logEvent (EvForceFlush p) s).

Definition Shutdown (sdk : Sdk) (p : TracerProvider) (s : State) : option error * State :=
  (Shutdown_result sdk p (events s), logEvent (EvShutdown p) s).

(** ** The package: config.go *)

(** [exporterConfig] is an interface value and may be nil; calling its method
    then panics.  So does the method of the OTLP configuration when one of
    its retry options is nil. *)
Definition OtelInit (sdk : Sdk) (startCtx : Context) (resourceConf : ResourceConfig.t)
  (exporterConfig : option SpanExporterConfig) (s : State)
  : outcome (option error) * State :=
  match ResourceConfig.newResource sdk resourceConf startCtx with
  | Err err => (Returned (Some err), s)
  | Ok res =>
      match exporterConfig with
      | None => (Panicked, s)
      | Some cfg =>
          match newSpanExporter sdk cfg startCtx with
          | Panicked => (Panicked, s)
          | Returned (Err err) => (Returned (Some err), s)
          | Returned (Ok exp) => (Returned None, register exp res s)
          end
      end
  end.

(** [tp] is a pointer; the SDK's [ForceFlush] reads through it, so a nil [tp]
    panics. *)
Definition OtelEnd (sdk : Sdk) (endCtx : Context) (s : State)
  : outcome (option error) * State :=
  match tp s with
  | None => (Panicked, s)
  | Some p =>
      match ForceFlush sdk p s with
      | (Some err, s1) => (Returned (Some err), s1)
      | (None, s1) =>
          let (r, s2) := Shutdown sdk p s1 in (Returned r, s2)
      end
  end.

Definition GetTraceParentEnv (s : State) (ctx : Context) : string :=
  let carrier : gmap string string := ∅ in
  let carrier := propagation.Inject (otel_TextMapPropagator s) ctx carrier in
  Sprintf_s_eq_s traceParent (propagation.Get carrier (strings.ToLower traceParent)).

(** ** The package: span.go *)

Module codes.
Inductive Code : Type := Unset | Error | Ok.
End codes.

(** A span is an interface value of the SDK.  What the package does to a
    span is the calls it makes on it, kept here in call order. *)
Inductive SpanCall : Type :=
| CallRecordError (err : option error)
| CallSetStatus (code : codes.Code) (description : string).

Definition Span : Type := list SpanCall.

(** [otelTrace.SpanStartOption], opaque. *)
Inductive SpanStartOption : Type := spanStartOption (id : nat).

(** [otel.Tracer(name, opts...)]: a tracer of the registered provider, or of
    the no-op provider when none is registered. *)
Record Tracer : Type := {
  tracer_provider : option TracerProvider;
  tracer_name : string;
  tracer_version : string;
  tracer_schemaURL : string
}.

(** What [Tracer.Start] is asked for. *)
Record StartedSpan : Type := {
  span_tracer : Tracer;
  span_parent : Context;
  span_name : string;
  span_options : list SpanStartOption
}.

Definition libName : string := "github.com/skoved/otelutils".
Definition libVer : string := "0.0.1".

Definition StartSpan (s : State) (parentCtx : Context) (spanName : string)
  (spanOpts : list SpanStartOption) : StartedSpan :=
  {| span_tracer :=
       {| tracer_provider := otel_TracerProvider s;
          tracer_name := libName;
          tracer_version := libVer;
          tracer_schemaURL := semconv.SchemaURL |};
     span_parent := parentCtx;
     span_name := spanName;
     span_options := spanOpts |}.

(** [span] is a pointer to an interface value: the pointer may be nil, and so
    may the interface it points to; [err] is an interface value and may be
    nil.  [RecordError(err)] is called on the span before [err.Error()] is
    evaluated. *)
Definition Error (span : option (option Span)) (err : option error)
  : outcome unit * option (option Span) :=
  match span with
  | None => (Panicked, span)
  | Some None => (Panicked, span)
  | Some (Some calls) =>
      let calls := calls ++ [CallRecordError err] in
      match err with
      | None => (Panicked, Some (Some calls))
      | Some msg =>
          (Returned tt, Some (Some (calls ++ [CallSetStatus codes.Error msg])))
      end
  end.

Definition StatusOK (span : option (option Span))
  : outcome unit * option (option Span) :=
  match span with
  | None => (Panicked, span)
  | Some None => (Panicked, span)
  | Some (Some calls) =>
      (Returned tt, Some (Some (calls ++ [CallSetStatus codes.Ok EmptyString])))
  end.

(** ** The legacy package: the string-keyed initializer and exporters.go *)

Module Legacy.

Definition newConsoleExporter (sdk : Sdk) (w : io_Writer) : result SpanExporter :=
  stdouttrace_New sdk [stdouttrace.WithWriter w; stdouttrace.WithPrettyPrint].

(** The cancel function that [context.WithTimeout] returns is dropped by the
    code and has no place here. *)
Definition newOtlpExporter (sdk : Sdk) : result SpanExporter :=
  let ctx := context_Background in
  let ctx := context_WithTimeout ctx (Second * 5)%Z in
  let client :=
    otlptracegrpc.NewClient
      [otlptracegrpc.WithEndpoint (viper_GetString sdk "OTEL_EXPORTER_OTLP_ENDPOINT");
       otlptracegrpc.WithInsecure] in
  otlptrace_New sdk ctx client.

Definition newResource (sdk : Sdk) : result resource.Resource :=
  resource_Merge sdk
    (resource_Default sdk)
    (resource.NewWithAttributes semconv.SchemaURL
       [(semconv.ServiceNameKey, "go-cli"); (semconv.ServiceVersionKey, "demo")]).

Definition setServiceName (name : string) (s : State) : State :=
  {| tp := tp s; serviceName := name;
     otel_TracerProvider := otel_TracerProvider s;
     otel_TextMapPropagator := otel_TextMapPropagator s;
     events := events s |}.

(** The tail of [OtelInit], after the switch has produced [exp, err]. *)
Definition finish (built : result SpanExporter) (res : resource.Resource) (s : State)
  : outcome (option error) * State :=
  match built with
  | Err err => (Returned (Some err), s)
  | Ok exp => (Returned None, register exp res s)
  end.

Definition OtelInit (sdk : Sdk) (name otelExporter : string) (s : State)
  : outcome (option error) * State :=
  let s := setServiceName name s in
  match newResource sdk with
  | Err err => (Returned (Some err), s)
  | Ok res =>
      if String.eqb otelExporter consoleExporter then
        finish (newConsoleExporter sdk os_Stdout) res s
      else if String.eqb otelExporter fileExporter then
        let fname := viper_GetString sdk "OTEL_FILE_SPAN_EXPORTER_NAME" in
        match os_Create_failure sdk fname with
        | Some fErr => (Returned (Some fErr), s)
        | None =>
            finish (newConsoleExporter sdk (os_File fname)) res
              (logEvent (EvCreate fname) s)
        end
      else if String.eqb otelExporter otlpExporter then
        finish (newOtlpExporter sdk) res s
      else
        (Returned (Some (Sprintf_not_implemented otelExporter)), s)
  end.

Definition OtelEnd (sdk : Sdk) (s : State) : outcome (option error) * State :=
  match tp s with
  | None => (Panicked, s)
  | Some p =>
      match ForceFlush sdk p s with
      | (Some err, s1) => (Returned (Some err), s1)
      | (None, s1) =>
          let (r, s2) := Shutdown sdk p s1 in (Returned r, s2)
      end
  end.

Definition GetTraceParentEnv (s : State) (ctx : Context) : string :=
  let carrier : gmap string string := ∅ in
  let carrier := propagation.Inject (otel_TextMapPropagator s) ctx carrier in
  Sprintf_s_eq_s traceParent (propagation.Get carrier (strings.ToLower traceParent)).

(** [otel.Tracer(serviceName).Start(parentCtx, spanName, opts...)] *)
Definition StartSpan (s : State) (parentCtx : Context) (spanName : string)
  (opts : list SpanStartOption) : StartedSpan :=
  {| span_tracer :=
       {| tracer_provider := otel_TracerProvider s;
          tracer_name := serviceName s;
          tracer_version := EmptyString;
          tracer_schemaURL := EmptyString |};
     span_parent := parentCtx;
     span_name := spanName;
     span_options := opts |}.

End Legacy.


(** ** States in which no initialization has succeeded *)

(** The states a process reaches from [initialState] through calls of
    [OtelInit] that do not return nil and calls of [OtelEnd]; the SDK may
    answer differently at every call. *)
Inductive uninitialized : State -> Prop :=
| uninit_start : uninitialized initialState
| uninit_init : forall sdk startCtx resourceConf exporterConfig s o s',
    uninitialized s ->
    OtelInit sdk startCtx resourceConf exporterConfig s = (o, s') ->
    o <> Returned None ->
    uninitialized s'
| uninit_end : forall sdk endCtx s o s',
    uninitialized s ->
    OtelEnd sdk endCtx s = (o, s') ->
    uninitialized s'.

Inductive legacy_uninitialized : State -> Prop :=
| legacy_uninit_start : legacy_uninitialized initialState
| legacy_uninit_init : forall sdk name otelExporter s o s',
    legacy_uninitialized s ->
    Legacy.OtelInit sdk name otelExporter s = (o, s') ->
    o <> Returned None ->
    legacy_uninitialized s'
| legacy_uninit_end : forall sdk s o s',
    legacy_uninitialized s ->
    Legacy.OtelEnd sdk s = (o, s') ->
    legacy_uninitialized s'.

(** The zero value [ResourceConfig{}]. *)
Definition zeroResourceConfig : ResourceConfig.t :=
  {| ResourceConfig.Attributes := [];
     ResourceConfig.Container := false;
     ResourceConfig.ContainerID := false;
     ResourceConfig.detectors := [];
     ResourceConfig.FromEnv := false;
     ResourceConfig.Host := false;
     ResourceConfig.OS := false;
     ResourceConfig.OSDescription := false;
     ResourceConfig.OSType := false;
     ResourceConfig.Process := false;
     ResourceConfig.ProcessCommandArgs := false;
     ResourceConfig.ProcessExecutableName := false;
     ResourceConfig.ProcessExecutablePath := false;
     ResourceConfig.ProcessOwner := false;
     ResourceConfig.ProcessPID := false;
     ResourceConfig.ProcessRuntimeDescription := false;
     ResourceConfig.ProcessRuntimeName := false;
     ResourceConfig.ProcessRuntimeVersion := false |}.

(** The zero value [OtlpGrpcSpanExporterConfig{}]. *)
Definition zeroOtlpConfig : OtlpGrpcSpanExporterConfig.t :=
  {| OtlpGrpcSpanExporterConfig.Compressor := EmptyString;
     OtlpGrpcSpanExporterConfig.DialOptions := [];
     OtlpGrpcSpanExporterConfig.Endpoint := EmptyString;
     OtlpGrpcSpanExporterConfig.GrpcConn := None;
     OtlpGrpcSpanExporterConfig.Headers := ∅;
     OtlpGrpcSpanExporterConfig.Insecure := false;
     OtlpGrpcSpanExporterConfig.ReconnectionPeriod := 0%Z;
     OtlpGrpcSpanExporterConfig.RetryOptions := [];
     OtlpGrpcSpanExporterConfig.ServiceConfig := EmptyString;
     OtlpGrpcSpanExporterConfig.TlsCredentials := None;
     OtlpGrpcSpanExporterConfig.Timeout := 0%Z |}.

(** A configuration that asks for nothing: every toggle off and both
    collections empty. *)
Definition nothingRequested (r : ResourceConfig.t) : Prop :=
  ResourceConfig.Attributes r = [] /\
  ResourceConfig.detectors r = [] /\
  ResourceConfig.Container r = false /\
  ResourceConfig.ContainerID r = false /\
  ResourceConfig.FromEnv r = false /\
  ResourceConfig.Host r = false /\
  ResourceConfig.OS r = false /\
  ResourceConfig.OSDescription r = false /\
  ResourceConfig.OSType r = false /\
  ResourceConfig.Process r = false /\
  ResourceConfig.ProcessCommandArgs r = false /\
  ResourceConfig.ProcessExecutableName r = false /\
  ResourceConfig.ProcessExecutablePath r = false /\
  ResourceConfig.ProcessOwner r = false /\
  ResourceConfig.ProcessPID r = false /\
  ResourceConfig.ProcessRuntimeDescription r = false /\
  ResourceConfig.ProcessRuntimeName r = false /\
  ResourceConfig.ProcessRuntimeVersion r = false.

(** Every field a caller can set is at its zero value: every boolean is
    false and the attribute list is empty. *)
Definition exportedFieldsZero (r : ResourceConfig.t) : Prop :=
  ResourceConfig.Attributes r = [] /\
  ResourceConfig.Container r = false /\
  ResourceConfig.ContainerID r = false /\
  ResourceConfig.FromEnv r = false /\
  ResourceConfig.Host r = false /\
  ResourceConfig.OS r = false /\
  ResourceConfig.OSDescription r = false /\
  ResourceConfig.OSType r = false /\
  ResourceConfig.Process r = false /\
  ResourceConfig.ProcessCommandArgs r = false /\
  ResourceConfig.ProcessExecutableName r = false /\
  ResourceConfig.ProcessExecutablePath r = false /\
  ResourceConfig.ProcessOwner r = false /\
  ResourceConfig.ProcessPID r = false /\
  ResourceConfig.ProcessRuntimeDescription r = false /\
  ResourceConfig.ProcessRuntimeName r = false /\
  ResourceConfig.ProcessRuntimeVersion r = false.

(** Every exported field at its zero value, and one detector in the
    unexported field; only code inside the package could build it. *)
Definition onlyDetectors : ResourceConfig.t :=
  {| ResourceConfig.Attributes := [];
     ResourceConfig.Container := false;
     ResourceConfig.ContainerID := false;
     ResourceConfig.detectors := [resource.detector 0];
     ResourceConfig.FromEnv := false;
     ResourceConfig.Host := false;
     ResourceConfig.OS := false;
     ResourceConfig.OSDescription := false;
     ResourceConfig.OSType := false;
     ResourceConfig.Process := false;
     ResourceConfig.ProcessCommandArgs := false;
     ResourceConfig.ProcessExecutableName := false;
     ResourceConfig.ProcessExecutablePath := false;
     ResourceConfig.ProcessOwner := false;
     ResourceConfig.ProcessPID := false;
     ResourceConfig.ProcessRuntimeDescription := false;
     ResourceConfig.ProcessRuntimeName := false;
     ResourceConfig.ProcessRuntimeVersion := false |}.

(** One conditional append, seen from the SDK's side. *)
Definition step (cond : bool) (x : otlptracegrpc.Option) (cfg : otlptracegrpc.config)
  : otlptracegrpc.config :=
  if cond then otlptracegrpc.apply cfg x else cfg.

Definition stepSome {A : Type} (p : option A) (f : A -> otlptracegrpc.Option)
  (cfg : otlptracegrpc.config) : otlptracegrpc.config :=
  match p with
  | Some v => otlptracegrpc.apply cfg (f v)
  | None => cfg
  end.

(** The options [getOptions] has appended when it returns, for the retry
    configuration [retryConfig] that its loop over [RetryOptions] has built. *)
Definition passedOptions (o : OtlpGrpcSpanExporterConfig.t)
  (retryConfig : otlptracegrpc.RetryConfig) : list otlptracegrpc.Option :=
  let options := [] in
  let options :=
    appendIf (negb (String.eqb (OtlpGrpcSpanExporterConfig.Compressor o) EmptyString))
      (otlptracegrpc.WithCompressor (OtlpGrpcSpanExporterConfig.Compressor o)) options in
  let options :=
    appendIf (Nat.ltb 0 (length (OtlpGrpcSpanExporterConfig.DialOptions o)))
      (otlptracegrpc.WithDialOption (OtlpGrpcSpanExporterConfig.DialOptions o)) options in
  let options :=
    appendIf (negb (String.eqb (OtlpGrpcSpanExporterConfig.Endpoint o) EmptyString))
      (otlptracegrpc.WithEndpoint (OtlpGrpcSpanExporterConfig.Endpoint o)) options in
  let options :=
    appendSome (OtlpGrpcSpanExporterConfig.GrpcConn o) otlptracegrpc.WithGRPCConn
      options in
  let options :=
    appendIf (Nat.ltb 0 (size (OtlpGrpcSpanExporterConfig.Headers o)))
      (otlptracegrpc.WithHeaders (OtlpGrpcSpanExporterConfig.Headers o)) options in
  let options :=
    appendIf (OtlpGrpcSpanExporterConfig.Insecure o) otlptracegrpc.WithInsecure options in
  let options :=
    appendIf (negb (Z.eqb (OtlpGrpcSpanExporterConfig.ReconnectionPeriod o) 0))
      (otlptracegrpc.WithReconnectionPeriod
         (OtlpGrpcSpanExporterConfig.ReconnectionPeriod o)) options in
  let options :=
    appendIf (Nat.ltb 0 (length (OtlpGrpcSpanExporterConfig.RetryOptions o)))
      (otlptracegrpc.WithRetry retryConfig) options in
  let options :=
    appendIf (negb (String.eqb (OtlpGrpcSpanExporterConfig.ServiceConfig o) EmptyString))
      (otlptracegrpc.WithServiceConfig (OtlpGrpcSpanExporterConfig.ServiceConfig o))
      options in
  let options :=
    appendSome (OtlpGrpcSpanExporterConfig.TlsCredentials o)
      otlptracegrpc.WithTLSCredentials options in
  let options :=
    appendIf (negb (Z.eqb (OtlpGrpcSpanExporterConfig.Timeout o) 0))
      (otlptracegrpc.WithTimeout (OtlpGrpcSpanExporterConfig.Timeout o)) options in
  options.

(** The retry policy the SDK ends up with: the one built from the retry
    options when there are any, and its own default otherwise. *)
Definition retryPolicy (o : OtlpGrpcSpanExporterConfig.t)
  (retryConfig : otlptracegrpc.RetryConfig) : otlptracegrpc.RetryConfig :=
  if Nat.ltb 0 (length (OtlpGrpcSpanExporterConfig.RetryOptions o))
  then retryConfig
  else otlptracegrpc.DefaultRetryConfig.

(** A configuration whose only setting is one retry option. *)
Definition onlyMaxElapsedTime : OtlpGrpcSpanExporterConfig.t :=
  {| OtlpGrpcSpanExporterConfig.Compressor := EmptyString;
     OtlpGrpcSpanExporterConfig.DialOptions := [];
     OtlpGrpcSpanExporterConfig.Endpoint := EmptyString;
     OtlpGrpcSpanExporterConfig.GrpcConn := None;
     OtlpGrpcSpanExporterConfig.Headers := ∅;
     OtlpGrpcSpanExporterConfig.Insecure := false;
     OtlpGrpcSpanExporterConfig.ReconnectionPeriod := 0%Z;
     OtlpGrpcSpanExporterConfig.RetryOptions :=
       [Some (RetryMaxElapsedTime (2 * Minute)%Z)];
     OtlpGrpcSpanExporterConfig.ServiceConfig := EmptyString;
     OtlpGrpcSpanExporterConfig.TlsCredentials := None;
     OtlpGrpcSpanExporterConfig.Timeout := 0%Z |}.

(** Two configurations that supply the same connection and differ in every
    setting that concerns dialling. *)
Definition suppliedOnly : OtlpGrpcSpanExporterConfig.t :=
  {| OtlpGrpcSpanExporterConfig.Compressor := EmptyString;
     OtlpGrpcSpanExporterConfig.DialOptions := [];
     OtlpGrpcSpanExporterConfig.Endpoint := EmptyString;
     OtlpGrpcSpanExporterConfig.GrpcConn := Some (ClientConn "collector:4317");
     OtlpGrpcSpanExporterConfig.Headers := ∅;
     OtlpGrpcSpanExporterConfig.Insecure := false;
     OtlpGrpcSpanExporterConfig.ReconnectionPeriod := 0%Z;
     OtlpGrpcSpanExporterConfig.RetryOptions := [];
     OtlpGrpcSpanExporterConfig.ServiceConfig := EmptyString;
     OtlpGrpcSpanExporterConfig.TlsCredentials := None;
     OtlpGrpcSpanExporterConfig.Timeout := 0%Z |}.

Definition suppliedAndDialling : OtlpGrpcSpanExporterConfig.t :=
  {| OtlpGrpcSpanExporterConfig.Compressor := "gzip";
     OtlpGrpcSpanExporterConfig.DialOptions := [DialOption 1; DialOption 2];
     OtlpGrpcSpanExporterConfig.Endpoint := "elsewhere:4317";
     OtlpGrpcSpanExporterConfig.GrpcConn := Some (ClientConn "collector:4317");
     OtlpGrpcSpanExporterConfig.Headers := ∅;
     OtlpGrpcSpanExporterConfig.Insecure := true;
     OtlpGrpcSpanExporterConfig.ReconnectionPeriod := (3 * Second)%Z;
     OtlpGrpcSpanExporterConfig.RetryOptions := [];
     OtlpGrpcSpanExporterConfig.ServiceConfig := "{}";
     OtlpGrpcSpanExporterConfig.TlsCredentials := Some (TransportCredentials 7);
     OtlpGrpcSpanExporterConfig.Timeout := 0%Z |}.

(** The propagator both initializers install. *)
Definition installed : propagation.TextMapPropagator :=
  propagation.NewCompositeTextMapPropagator [propagation.TraceContext; propagation.Baggage].

(** The span context read back from the traceparent header of [sc]. *)
Definition readBack (sc : trace.SpanContext) : trace.SpanContext :=
  {| trace.TraceID := trace.TraceID sc;
     trace.SpanID := trace.SpanID sc;
     trace.TraceFlags :=
       trace.byte_and (trace.byte_and (trace.TraceFlags sc) trace.FlagsSampled)
         trace.FlagsSampled;
     trace.TraceState := EmptyString;
     trace.Remote := true |}.

(** The example of the trace-context recommendation:
    [00-4bf92f3577b34da6a3ce929d0e0e4736-00f067aa0ba902b7-01]. *)
Definition sampleSpanContext : trace.SpanContext :=
  {| trace.TraceID :=
       [Byte.x4b; Byte.xf9; Byte.x2f; Byte.x35; Byte.x77; Byte.xb3; Byte.x4d; Byte.xa6;
        Byte.xa3; Byte.xce; Byte.x92; Byte.x9d; Byte.x0e; Byte.x0e; Byte.x47; Byte.x36];
     trace.SpanID :=
       [Byte.x00; Byte.xf0; Byte.x67; Byte.xaa; Byte.x0b; Byte.xa9; Byte.x02; Byte.xb7];
     trace.TraceFlags := Byte.x01;
     trace.TraceState := EmptyString;
     trace.Remote := false |}.

Definition sampleContext : Context :=
  {| ctx_span := Some sampleSpanContext; ctx_baggage := EmptyString;
     ctx_deadline := None; ctx_cancelled := false |}.

Definition plainConsole : ConsoleSpanExporterConfig.t :=
  {| ConsoleSpanExporterConfig.PrettyPrint := false;
     ConsoleSpanExporterConfig.Timestamps := false;
     ConsoleSpanExporterConfig.Writer := None |}.

(** An SDK on a machine where every call succeeds and nothing is detected. *)
Definition quietSdk : Sdk :=
  {| resource_New := fun _ => Ok (resource.NewWithAttributes semconv.SchemaURL []);
     resource_Default := resource.NewWithAttributes semconv.SchemaURL [];
     resource_Merge := fun a b =>
       Ok (resource.NewWithAttributes (resource.schemaURL b)
             (resource.attrs a ++ resource.attrs b));
     stdouttrace_failure := fun _ => None;
     otlptrace_failure := fun _ _ => None;
     os_Create_failure := fun _ => None;
     viper_GetString := fun _ => EmptyString;
     ForceFlush_result := fun _ _ => None;
     Shutdown_result := fun _ _ => None |}.

(** An SDK whose default resource carries another schema URL than the
    package's, so that merging the two is refused. *)
Definition conflictingSdk : Sdk :=
  {| resource_New := fun _ => Ok (resource.NewWithAttributes semconv.SchemaURL []);
     resource_Default :=
       resource.NewWithAttributes "https://opentelemetry.io/schemas/1.26.0" [];
     resource_Merge := fun a b =>
       if String.eqb (resource.schemaURL a) (resource.schemaURL b)
       then Ok (resource.NewWithAttributes (resource.schemaURL b)
                  (resource.attrs a ++ resource.attrs b))
       else Err "cannot merge resource due to conflicting Schema URL";
     stdouttrace_failure := fun _ => None;
     otlptrace_failure := fun _ _ => None;
     os_Create_failure := fun _ => None;
     viper_GetString := fun _ => EmptyString;
     ForceFlush_result := fun _ _ => None;
     Shutdown_result := fun _ _ => None |}.

(** An SDK on a machine where no collector can be reached and flushing
    fails. *)
Definition offlineSdk : Sdk :=
  {| resource_New := fun _ => Ok (resource.NewWithAttributes semconv.SchemaURL []);
     resource_Default := resource.NewWithAttributes semconv.SchemaURL [];
     resource_Merge := fun a b =>
       Ok (resource.NewWithAttributes (resource.schemaURL b)
             (resource.attrs a ++ resource.attrs b));
     stdouttrace_failure := fun _ => None;
     otlptrace_failure := fun _ _ => Some "context deadline exceeded";
     os_Create_failure := fun _ => Some "open : no such file or directory";
     viper_GetString := fun _ => EmptyString;
     ForceFlush_result := fun _ _ => Some "context deadline exceeded";
     Shutdown_result := fun _ _ => None |}.

(** ** Runs of calls *)

(** [n] calls of [OtelEnd] in a row: what each returned, and the state
    left. *)
Fixpoint endTimes (sdk : Sdk) (endCtx : Context) (n : nat) (s : State)
  : list (outcome (option error)) * State :=
  match n with
  | O => ([], s)
  | S n' =>
      let (o, s1) := OtelEnd sdk endCtx s in
      let (os, s2) := endTimes sdk endCtx n' s1 in
      (o :: os, s2)
  end.

Definition isForceFlush (ev : Event) : bool :=
  match ev with
  | EvForceFlush _ => true
  | _ => false
  end.

Definition isCreate (ev : Event) : bool :=
  match ev with
  | EvCreate _ => true
  | _ => false
  end.

(** Calls of the legacy [OtelInit], each with its name and exporter kind,
    one after the other. *)
Definition legacyInits (sdk : Sdk) (calls : list (string * string)) (s : State) : State :=
  fold_left (fun s c => snd (Legacy.OtelInit sdk (fst c) (snd c) s)) calls s.

(** [Error] for each error of a list, on the same span. *)
Fixpoint recordAll (span : option (option Span)) (errs : list error)
  : option (option Span) :=
  match errs with
  | [] => span
  | e :: rest => recordAll (snd (Error span (Some e))) rest
  end.

(** The calls [Error] makes for one error. *)
Definition errorCalls (e : error) : list SpanCall :=
  [CallRecordError (Some e); CallSetStatus codes.Error e].

(** The settings the four retry options of the package stand for. *)
Inductive RetrySetting : Type :=
| SetEnabled (enabled : bool)
| SetInitialInterval (interval : Duration)
| SetMaxInterval (interval : Duration)
| SetMaxElapsedTime (interval : Duration).

Definition retryOption (st : RetrySetting) : RetryOption :=
  match st with
  | SetEnabled b => RetryEnabled b
  | SetInitialInterval d => RetryInitialInterval d
  | SetMaxInterval d => RetryMaxInterval d
  | SetMaxElapsedTime d => RetryMaxElapsedTime d
  end.

(** The value the last setting of a field gives it, if any setting of the
    list is about that field. *)
Fixpoint lastOf {A : Type} (pick : RetrySetting -> option A) (l : list RetrySetting)
  : option A :=
  match l with
  | [] => None
  | st :: rest =>
      match lastOf pick rest with
      | Some v => Some v
      | None => pick st
      end
  end.

Definition pickEnabled (st : RetrySetting) : option bool :=
  match st with SetEnabled b => Some b | _ => None end.
Definition pickInitialInterval (st : RetrySetting) : option Duration :=
  match st with SetInitialInterval d => Some d | _ => None end.
Definition pickMaxInterval (st : RetrySetting) : option Duration :=
  match st with SetMaxInterval d => Some d | _ => None end.
Definition pickMaxElapsedTime (st : RetrySetting) : option Duration :=
  match st with SetMaxElapsedTime d => Some d | _ => None end.

(** A configuration that dials, with two retry options and a timeout. *)
Definition dialling : OtlpGrpcSpanExporterConfig.t :=
  {| OtlpGrpcSpanExporterConfig.Compressor := EmptyString;
     OtlpGrpcSpanExporterConfig.DialOptions := [];
     OtlpGrpcSpanExporterConfig.Endpoint := "collector:4317";
     OtlpGrpcSpanExporterConfig.GrpcConn := None;
     OtlpGrpcSpanExporterConfig.Headers := ∅;
     OtlpGrpcSpanExporterConfig.Insecure := true;
     OtlpGrpcSpanExporterConfig.ReconnectionPeriod := 0%Z;
     OtlpGrpcSpanExporterConfig.RetryOptions :=
       [Some (RetryEnabled true); Some (RetryInitialInterval Second)];
     OtlpGrpcSpanExporterConfig.ServiceConfig := EmptyString;
     OtlpGrpcSpanExporterConfig.TlsCredentials := None;
     OtlpGrpcSpanExporterConfig.Timeout := (3 * Second)%Z |}.

(** The same, with a nil function as second retry option. *)
Definition nilRetryOption : OtlpGrpcSpanExporterConfig.t :=
  {| OtlpGrpcSpanExporterConfig.Compressor := EmptyString;
     OtlpGrpcSpanExporterConfig.DialOptions := [];
     OtlpGrpcSpanExporterConfig.Endpoint := "collector:4317";
     OtlpGrpcSpanExporterConfig.GrpcConn := None;
     OtlpGrpcSpanExporterConfig.Headers := ∅;
     OtlpGrpcSpanExporterConfig.Insecure := true;
     OtlpGrpcSpanExporterConfig.ReconnectionPeriod := 0%Z;
     OtlpGrpcSpanExporterConfig.RetryOptions := [Some (RetryEnabled true); None];
     OtlpGrpcSpanExporterConfig.ServiceConfig := EmptyString;
     OtlpGrpcSpanExporterConfig.TlsCredentials := None;
     OtlpGrpcSpanExporterConfig.Timeout := (3 * Second)%Z |}.

(** The retry options that a list of settings stands for; none is nil. *)
Definition retryOptions (l : list RetrySetting) : list (option RetryOption) :=
  map (fun st => Some (retryOption st)) l.

(** The current configuration that asks for what the legacy OTLP exporter
    asks for: the given endpoint, without transport security. *)
Definition insecureTo (endpoint : string) : OtlpGrpcSpanExporterConfig.t :=
  {| OtlpGrpcSpanExporterConfig.Compressor := EmptyString;
     OtlpGrpcSpanExporterConfig.DialOptions := [];
     OtlpGrpcSpanExporterConfig.Endpoint := endpoint;
     OtlpGrpcSpanExporterConfig.GrpcConn := None;
     OtlpGrpcSpanExporterConfig.Headers := ∅;
     OtlpGrpcSpanExporterConfig.Insecure := true;
     OtlpGrpcSpanExporterConfig.ReconnectionPeriod := 0%Z;
     OtlpGrpcSpanExporterConfig.RetryOptions := [];
     OtlpGrpcSpanExporterConfig.ServiceConfig := EmptyString;
     OtlpGrpcSpanExporterConfig.TlsCredentials := None;
     OtlpGrpcSpanExporterConfig.Timeout := 0%Z |}.

(** The context the legacy OTLP exporter is started under: a background
    context with five seconds to go. *)
Definition fiveSeconds : Context :=
  context_WithTimeout context_Background (Second * 5)%Z.

(** The endpoint an exporter dials, if it dials. *)
Definition dialledEndpoint (built : result SpanExporter) : option string :=
  match built with
  | Ok (OtlpExporter c) =>
      match otlptracegrpc.conn c with
      | otlptracegrpc.Dialled d => Some (otlptracegrpc.Endpoint d)
      | otlptracegrpc.Supplied _ => None
      end
  | _ => None
  end.

(** An SDK on a machine whose configuration names a collector. *)
Definition configuredSdk : Sdk :=
  {| resource_New := fun _ => Ok (resource.NewWithAttributes semconv.SchemaURL []);
     resource_Default := resource.NewWithAttributes semconv.SchemaURL [];
     resource_Merge := fun a b =>
       Ok (resource.NewWithAttributes (resource.schemaURL b)
             (resource.attrs a ++ resource.attrs b));
     stdouttrace_failure := fun _ => None;
     otlptrace_failure := fun _ _ => None;
     os_Create_failure := fun _ => None;
     viper_GetString := fun key =>
       if String.eqb key "OTEL_EXPORTER_OTLP_ENDPOINT" then "collector:4317"
       else "spans.json";
     ForceFlush_result := fun _ _ => None;
     Shutdown_result := fun _ _ => None |}.

(** Whether a process-wide propagator includes the trace-context one. *)
Definition isTraceContext (p : propagation.Propagator) : bool :=
  match p with
  | propagation.TraceContext => true
  | propagation.Baggage => false
  end.

Definition injectsTraceContext (p : propagation.TextMapPropagator) : bool :=
  match p with
  | propagation.NoopTextMapPropagator => false
  | propagation.NewCompositeTextMapPropagator ps => existsb isTraceContext ps
  end.

(** The writer a console configuration ends up with. *)
Definition destination (c : ConsoleSpanExporterConfig.t) : io_Writer :=
  match ConsoleSpanExporterConfig.Writer c with
  | None => os_Stdout
  | Some w => w
  end.

(** * Properties *)

(** ** The functions at concrete inputs *)

Example console_options_default :
  ConsoleSpanExporterConfig.getOptions plainConsole =
    [stdouttrace.WithoutTimestamps; stdouttrace.WithWriter os_Stdout].
Proof. reflexivity. Qed.

Example resource_options_zero :
  ResourceConfig.getOptions zeroResourceConfig =
    [resource.WithSchemaURL "https://opentelemetry.io/schemas/1.12.0";
     resource.WithTelemetrySDK].
Proof. reflexivity. Qed.

Example resource_options_with_detector :
  ResourceConfig.getOptions onlyDetectors =
    [resource.WithSchemaURL "https://opentelemetry.io/schemas/1.12.0";
     resource.WithTelemetrySDK;
     resource.WithDetectors [resource.detector 0]].
Proof. reflexivity. Qed.

Example otlp_options_supplied_and_dialling :
  OtlpGrpcSpanExporterConfig.getOptions suppliedAndDialling =
   Returned
    [otlptracegrpc.WithCompressor "gzip";
     otlptracegrpc.WithDialOption [DialOption 1; DialOption 2];
     otlptracegrpc.WithEndpoint "elsewhere:4317";
     otlptracegrpc.WithGRPCConn (ClientConn "collector:4317");
     otlptracegrpc.WithInsecure;
     otlptracegrpc.WithReconnectionPeriod 3000000000%Z;
     otlptracegrpc.WithServiceConfig "{}";
     otlptracegrpc.WithTLSCredentials (TransportCredentials 7)].
Proof. reflexivity. Qed.

Example otlp_options_zero :
  OtlpGrpcSpanExporterConfig.getOptions zeroOtlpConfig = Returned [].
Proof. reflexivity. Qed.

Example traceparent_sample :
  propagation.traceparent sampleSpanContext =
    "00-4bf92f3577b34da6a3ce929d0e0e4736-00f067aa0ba902b7-01".
Proof. reflexivity. Qed.

Example parse_sample :
  propagation.parseTraceparent
    "00-4bf92f3577b34da6a3ce929d0e0e4736-00f067aa0ba902b7-01" EmptyString =
    Some (readBack sampleSpanContext).
Proof. reflexivity. Qed.

Example parse_rejects_upper_case :
  propagation.parseTraceparent
    "00-4BF92F3577B34DA6A3CE929D0E0E4736-00f067aa0ba902b7-01" EmptyString = None.
Proof. reflexivity. Qed.

Example lower_case_key : strings.ToLower "TRACEPARENT" = "traceparent".
Proof. reflexivity. Qed.

Example legacy_init_console :
  Legacy.OtelInit quietSdk "cli" "console" initialState =
    (Returned None,
     register
       (StdoutExporter
          {| stdouttrace.Writer := os_Stdout;
             stdouttrace.PrettyPrint := true;
             stdouttrace.Timestamps := true |})
       (resource.NewWithAttributes "https://opentelemetry.io/schemas/1.12.0"
          [("service.name", "go-cli"); ("service.version", "demo")])
       (Legacy.setServiceName "cli" initialState)).
Proof. reflexivity. Qed.

Example legacy_init_unknown :
  Legacy.OtelInit quietSdk "cli" "jaeger" initialState =
    (Returned (Some "Exporter type 'jaeger' is not implemented"),
     Legacy.setServiceName "cli" initialState).
Proof. reflexivity. Qed.

Example end_in_fresh_process :
  OtelEnd quietSdk context_Background initialState = (Panicked, initialState).
Proof. reflexivity. Qed.

(** ** The option builders *)

Lemma appendIf_app {A : Type} (cond : bool) (x : A) (options : list A) :
  appendIf cond x options = options ++ (if cond then [x] else []).
Proof. destruct cond; simpl; [reflexivity | now rewrite app_nil_r]. Qed.

Lemma in_appendIf {A : Type} (cond : bool) (x y : A) (options : list A) :
  In y (appendIf cond x options) <-> In y options \/ (cond = true /\ y = x).
Proof.
  rewrite appendIf_app, in_app_iff.
  destruct cond; simpl; intuition congruence.
Qed.

Lemma in_appendSome {A B : Type} (p : option A) (f : A -> B) (y : B) (options : list B) :
  In y (appendSome p f options) <-> In y options \/ (exists v, p = Some v /\ y = f v).
Proof.
  destruct p as [v|]; simpl.
  - rewrite in_app_iff. simpl. split.
    + intros [H | [H | []]]; [now left | right; exists v; auto].
    + intros [H | (w & Hw & ->)]; [now left | right; left; congruence].
  - split; [now left | intros [H | (w & Hw & _)]; [assumption | discriminate]].
Qed.

Lemma ltb_length_true {A : Type} (l : list A) :
  Nat.ltb 0 (length l) = true <-> l <> [].
Proof.
  destruct l; simpl; split; intro H; try congruence; try reflexivity.
  now contradict H.
Qed.

(** ** Resource resolution *)

Section ResourceOptions.

Import ResourceConfig.

(** Which options [getOptions] passes, for every configuration. *)
Lemma in_getOptions (r : ResourceConfig.t) (o : resource.Option) :
  In o (ResourceConfig.getOptions r) <->
    o = resource.WithSchemaURL semconv.SchemaURL
    \/ o = resource.WithTelemetrySDK
    \/ (Attributes r <> [] /\ o = resource.WithAttributes (Attributes r))
    \/ (Container r = true /\ o = resource.WithContainer)
    \/ (ContainerID r = true /\ o = resource.WithContainerID)
    \/ (detectors r <> [] /\ o = resource.WithDetectors (detectors r))
    \/ (FromEnv r = true /\ o = resource.WithFromEnv)
    \/ (Host r = true /\ o = resource.WithHost)
    \/ (OS r = true /\ o = resource.WithOS)
    \/ (OSDescription r = true /\ o = resource.WithOSDescription)
    \/ (OSType r = true /\ o = resource.WithOSType)
    \/ (Process r = true /\ o = resource.WithProcess)
    \/ (ProcessCommandArgs r = true /\ o = resource.WithProcessCommandArgs)
    \/ (ProcessExecutableName r = true /\ o = resource.WithProcessExecutableName)
    \/ (ProcessExecutablePath r = true /\ o = resource.WithProcessExecutablePath)
    \/ (ProcessOwner r = true /\ o = resource.WithProcessOwner)
    \/ (ProcessPID r = true /\ o = resource.WithProcessPID)
    \/ (ProcessRuntimeDescription r = true /\ o = resource.WithProcessRuntimeDescription)
    \/ (ProcessRuntimeName r = true /\ o = resource.WithProcessRuntimeName)
    \/ (ProcessRuntimeVersion r = true /\ o = resource.WithProcessRuntimeVersion).
Proof.
  unfold ResourceConfig.getOptions. cbv zeta.
  rewrite !in_appendIf, !ltb_length_true. simpl In.
  intuition congruence.
Qed.

Lemma nothingRequested_zero (r : ResourceConfig.t) :
  nothingRequested r -> r = zeroResourceConfig.
Proof.
  destruct r. unfold nothingRequested. simpl.
  intros (? & ? & ? & ? & ? & ? & ? & ? & ? & ? & ? & ? & ? & ? & ? & ? & ? & ?).
  subst. reflexivity.
Qed.

Lemma bool_off (b : bool) : (b = true -> False) -> b = false.
Proof. destruct b; intro H; [exfalso; auto | reflexivity]. Qed.

Lemma list_off {A : Type} (l : list A) : (l <> [] -> False) -> l = [].
Proof. destruct l; intro H; [reflexivity | exfalso; apply H; discriminate]. Qed.

(** An option that would be passed if its field were set cannot be one of
    the two fixed options. *)
Ltac absent Hin opt :=
  let D := fresh "D" in
  destruct (Hin opt) as [D | D];
  [apply in_getOptions; tauto | discriminate D | discriminate D].

Lemma two_options_only (r : ResourceConfig.t) :
  ResourceConfig.getOptions r =
    [resource.WithSchemaURL semconv.SchemaURL; resource.WithTelemetrySDK] ->
  nothingRequested r.
Proof.
  intro E.
  assert (Hin : forall o, In o (ResourceConfig.getOptions r) ->
            o = resource.WithSchemaURL semconv.SchemaURL \/ o = resource.WithTelemetrySDK).
  { intros o Ho. rewrite E in Ho. simpl in Ho. intuition. }
  unfold nothingRequested. repeat split.
  - apply list_off; intro. absent Hin (resource.WithAttributes (Attributes r)).
  - apply list_off; intro. absent Hin (resource.WithDetectors (detectors r)).
  - apply bool_off; intro. absent Hin resource.WithContainer.
  - apply bool_off; intro. absent Hin resource.WithContainerID.
  - apply bool_off; intro. absent Hin resource.WithFromEnv.
  - apply bool_off; intro. absent Hin resource.WithHost.
  - apply bool_off; intro. absent Hin resource.WithOS.
  - apply bool_off; intro. absent Hin resource.WithOSDescription.
  - apply bool_off; intro. absent Hin resource.WithOSType.
  - apply bool_off; intro. absent Hin resource.WithProcess.
  - apply bool_off; intro. absent Hin resource.WithProcessCommandArgs.
  - apply bool_off; intro. absent Hin resource.WithProcessExecutableName.
  - apply bool_off; intro. absent Hin resource.WithProcessExecutablePath.
  - apply bool_off; intro. absent Hin resource.WithProcessOwner.
  - apply bool_off; intro. absent Hin resource.WithProcessPID.
  - apply bool_off; intro. absent Hin resource.WithProcessRuntimeDescription.
  - apply bool_off; intro. absent Hin resource.WithProcessRuntimeName.
  - apply bool_off; intro. absent Hin resource.WithProcessRuntimeVersion.
Qed.

Lemma exportedFieldsZero_nothing (r : ResourceConfig.t) :
  detectors r = [] -> (exportedFieldsZero r <-> nothingRequested r).
Proof.
  unfold exportedFieldsZero, nothingRequested. intro H. rewrite H. tauto.
Qed.

(** C1.  For every [ResourceConfig], [newResource] hands to the SDK's
    resource constructor the option list of [getOptions]; this list always
    contains the schema-URL option and the SDK-identification option, and
    contains any other option exactly when its boolean field is true or its
    collection field is not empty.  The field [detectors] is unexported and
    nothing in the package assigns it, so it is nil in every configuration a
    caller builds; for such a configuration, with every boolean false
    ([FromEnv] among them) and an empty attribute list, the two fixed options
    are the only ones passed, and no option that adds the attributes of a
    group is among them: the resource is what the SDK makes of the two fixed
    options, merged into its default resource. *)
Theorem resource_options_resolution (sdk : Sdk) (r : ResourceConfig.t) (ctx : Context) :
  let fixed := [resource.WithSchemaURL semconv.SchemaURL; resource.WithTelemetrySDK] in
  ResourceConfig.newResource sdk r ctx =
    match resource_New sdk (ResourceConfig.getOptions r) with
    | Err err => Err err
    | Ok newResource => resource_Merge sdk (resource_Default sdk) newResource
    end
  /\ In (resource.WithSchemaURL semconv.SchemaURL) (ResourceConfig.getOptions r)
  /\ In resource.WithTelemetrySDK (ResourceConfig.getOptions r)
  /\ (forall o, In o (ResourceConfig.getOptions r) <->
    o = resource.WithSchemaURL semconv.SchemaURL
    \/ o = resource.WithTelemetrySDK
    \/ (Attributes r <> [] /\ o = resource.WithAttributes (Attributes r))
    \/ (Container r = true /\ o = resource.WithContainer)
    \/ (ContainerID r = true /\ o = resource.WithContainerID)
    \/ (detectors r <> [] /\ o = resource.WithDetectors (detectors r))
    \/ (FromEnv r = true /\ o = resource.WithFromEnv)
    \/ (Host r = true /\ o = resource.WithHost)
    \/ (OS r = true /\ o = resource.WithOS)
    \/ (OSDescription r = true /\ o = resource.WithOSDescription)
    \/ (OSType r = true /\ o = resource.WithOSType)
    \/ (Process r = true /\ o = resource.WithProcess)
    \/ (ProcessCommandArgs r = true /\ o = resource.WithProcessCommandArgs)
    \/ (ProcessExecutableName r = true /\ o = resource.WithProcessExecutableName)
    \/ (ProcessExecutablePath r = true /\ o = resource.WithProcessExecutablePath)
    \/ (ProcessOwner r = true /\ o = resource.WithProcessOwner)
    \/ (ProcessPID r = true /\ o = resource.WithProcessPID)
    \/ (ProcessRuntimeDescription r = true /\ o = resource.WithProcessRuntimeDescription)
    \/ (ProcessRuntimeName r = true /\ o = resource.WithProcessRuntimeName)
    \/ (ProcessRuntimeVersion r = true /\ o = resource.WithProcessRuntimeVersion))
  /\ (detectors r = [] ->
      exportedFieldsZero r ->
      ResourceConfig.getOptions r = fixed
      /\ (forall o, In o (ResourceConfig.getOptions r) ->
            o = resource.WithSchemaURL semconv.SchemaURL \/ o = resource.WithTelemetrySDK)
      /\ ResourceConfig.newResource sdk r ctx =
           match resource_New sdk fixed with
           | Err err => Err err
           | Ok newResource => resource_Merge sdk (resource_Default sdk) newResource
           end)
  /\ (detectors r = [] ->
      ResourceConfig.getOptions r = fixed ->
      exportedFieldsZero r).
Proof.
  cbv zeta.
  split; [reflexivity |].
  split; [apply in_getOptions; left; reflexivity |].
  split; [apply in_getOptions; right; left; reflexivity |].
  split; [apply in_getOptions |].
  split.
  - intros Hd Hz. apply (exportedFieldsZero_nothing r Hd) in Hz.
    apply nothingRequested_zero in Hz. subst r.
    split; [reflexivity | split; [| reflexivity]].
    intros o [<- | [<- | []]]; [left | right]; reflexivity.
  - intros Hd E. apply (exportedFieldsZero_nothing r Hd). apply two_options_only. exact E.
Qed.

(** C1 at the zero value of [ResourceConfig]. *)
Lemma resource_options_resolution_witness :
  ResourceConfig.getOptions zeroResourceConfig =
    [resource.WithSchemaURL semconv.SchemaURL; resource.WithTelemetrySDK]
  /\ ResourceConfig.newResource quietSdk zeroResourceConfig context_Background =
       Ok (resource.NewWithAttributes semconv.SchemaURL []).
Proof.
  assert (Z : exportedFieldsZero zeroResourceConfig).
  { unfold exportedFieldsZero. simpl. repeat split. }
  destruct (resource_options_resolution quietSdk zeroResourceConfig context_Background)
    as (_ & _ & _ & _ & H & _).
  destruct (H eq_refl Z) as (H1 & _ & H3).
  split; [exact H1 |]. rewrite H3. reflexivity.
Defined.

End ResourceOptions.

(** ** Console exporter *)

(** C7.  For every [ConsoleSpanExporterConfig] the exporter is built from
    [getOptions]; it writes to standard output when [Writer] is nil and to
    the supplied writer otherwise; it pretty-prints exactly when [PrettyPrint]
    is set and keeps timestamps exactly when [Timestamps] is set.  Each of the
    three options depends on its own field only. *)
Theorem console_exporter_configuration (c : ConsoleSpanExporterConfig.t) :
  let options := ConsoleSpanExporterConfig.getOptions c in
  let cfg := stdouttrace.newConfig options in
  let destination :=
    match ConsoleSpanExporterConfig.Writer c with
    | None => os_Stdout
    | Some w => w
    end in
  (forall sdk ctx,
     ConsoleSpanExporterConfig.newSpanExporter sdk c ctx = stdouttrace_New sdk options)
  /\ stdouttrace.Writer cfg = destination
  /\ stdouttrace.PrettyPrint cfg = ConsoleSpanExporterConfig.PrettyPrint c
  /\ stdouttrace.Timestamps cfg = ConsoleSpanExporterConfig.Timestamps c
  /\ (forall w, In (stdouttrace.WithWriter w) options <-> w = destination)
  /\ (In stdouttrace.WithPrettyPrint options <->
        ConsoleSpanExporterConfig.PrettyPrint c = true)
  /\ (In stdouttrace.WithoutTimestamps options <->
        ConsoleSpanExporterConfig.Timestamps c = false).
Proof.
  destruct c as [pp ts w]. cbv zeta.
  split; [reflexivity |].
  unfold ConsoleSpanExporterConfig.getOptions. simpl.
  destruct pp, ts, w as [w|]; simpl;
    repeat split; intros; subst; intuition congruence.
Qed.

(** ** The legacy console and file exporters *)

(** What [stdouttrace.New] receives from the legacy helper. *)
Lemma legacy_console_config (w : io_Writer) :
  stdouttrace.newConfig [stdouttrace.WithWriter w; stdouttrace.WithPrettyPrint] =
    {| stdouttrace.Writer := w;
       stdouttrace.PrettyPrint := true;
       stdouttrace.Timestamps := stdouttrace.Timestamps stdouttrace.defaultConfig |}.
Proof. reflexivity. Qed.

Lemma legacy_console_exporter (sdk : Sdk) (w : io_Writer) (exp : SpanExporter) :
  Legacy.newConsoleExporter sdk w = Ok exp ->
  exp = StdoutExporter
          {| stdouttrace.Writer := w;
             stdouttrace.PrettyPrint := true;
             stdouttrace.Timestamps := stdouttrace.Timestamps stdouttrace.defaultConfig |}.
Proof.
  unfold Legacy.newConsoleExporter, stdouttrace_New.
  rewrite legacy_console_config.
  destruct (stdouttrace_failure sdk _); [discriminate | congruence].
Qed.

Lemma finish_success (built : result SpanExporter) (res : resource.Resource)
  (s s' : State) :
  Legacy.finish built res s = (Returned None, s') ->
  exists exp, built = Ok exp /\ s' = register exp res s.
Proof.
  destruct built as [exp | err]; simpl; intro H; [| discriminate].
  exists exp. split; congruence.
Qed.

(** C10.  In the legacy path, the helper [newConsoleExporter] takes a writer
    and nothing else, and every exporter it builds pretty-prints and leaves
    timestamps at the SDK default.  Whenever the legacy initializer succeeds
    for the kind "console" or "file", the exporter of the provider it
    installs is such an exporter, writing to standard output or to the
    created file. *)
Theorem legacy_console_always_pretty (sdk : Sdk) (name otelExporter : string)
  (s s' : State) :
  otelExporter = consoleExporter \/ otelExporter = fileExporter ->
  Legacy.OtelInit sdk name otelExporter s = (Returned None, s') ->
  exists w p,
    tp s' = Some p
    /\ Legacy.newConsoleExporter sdk w = Ok (tp_exporter p)
    /\ tp_exporter p =
         StdoutExporter
           {| stdouttrace.Writer := w;
              stdouttrace.PrettyPrint := true;
              stdouttrace.Timestamps := stdouttrace.Timestamps stdouttrace.defaultConfig |}
    /\ (otelExporter = consoleExporter -> w = os_Stdout)
    /\ (otelExporter = fileExporter ->
          w = os_File (viper_GetString sdk "OTEL_FILE_SPAN_EXPORTER_NAME")).
Proof.
  intros Hkind Hinit. unfold Legacy.OtelInit in Hinit.
  destruct (Legacy.newResource sdk) as [res | err]; [| discriminate].
  destruct Hkind as [-> | ->]; simpl in Hinit.
  - apply finish_success in Hinit as (exp & Hexp & ->).
    exists os_Stdout, (NewTracerProvider exp res). simpl.
    repeat split; auto.
    + eapply legacy_console_exporter; eassumption.
    + discriminate.
  - destruct (os_Create_failure sdk _); [discriminate |].
    apply finish_success in Hinit as (exp & Hexp & ->).
    exists (os_File (viper_GetString sdk "OTEL_FILE_SPAN_EXPORTER_NAME")),
      (NewTracerProvider exp res). simpl.
    repeat split; auto.
    + eapply legacy_console_exporter; eassumption.
    + discriminate.
Qed.

(** C10 on a machine where everything succeeds, for the kind "console". *)
Lemma legacy_console_always_pretty_witness :
  exists w p,
    tp (snd (Legacy.OtelInit quietSdk "cli" consoleExporter initialState)) = Some p
    /\ Legacy.newConsoleExporter quietSdk w = Ok (tp_exporter p)
    /\ tp_exporter p =
         StdoutExporter
           {| stdouttrace.Writer := w;
              stdouttrace.PrettyPrint := true;
              stdouttrace.Timestamps := stdouttrace.Timestamps stdouttrace.defaultConfig |}
    /\ (consoleExporter = consoleExporter -> w = os_Stdout)
    /\ (consoleExporter = fileExporter ->
          w = os_File (viper_GetString quietSdk "OTEL_FILE_SPAN_EXPORTER_NAME")).
Proof.
  apply (legacy_console_always_pretty quietSdk "cli" consoleExporter initialState).
  - left. reflexivity.
  - reflexivity.
Defined.

(** ** The OTLP exporter: what the SDK resolves from [getOptions] *)

Section OtlpOptions.

Import OtlpGrpcSpanExporterConfig.

Lemma fold_appendIf cond x options cfg :
  fold_left otlptracegrpc.apply (appendIf cond x options) cfg =
    step cond x (fold_left otlptracegrpc.apply options cfg).
Proof. destruct cond; simpl; [apply fold_left_app | reflexivity]. Qed.

Lemma fold_appendSome {A : Type} (p : option A) f options cfg :
  fold_left otlptracegrpc.apply (appendSome p f options) cfg =
    stepSome p f (fold_left otlptracegrpc.apply options cfg).
Proof. destruct p; simpl; [apply fold_left_app | reflexivity]. Qed.

Lemma step_keeps {T : Type} (field : otlptracegrpc.config -> T) cond x cfg :
  (forall cfg', field (otlptracegrpc.apply cfg' x) = field cfg') ->
  field (step cond x cfg) = field cfg.
Proof. intro H. destruct cond; simpl; auto. Qed.

Lemma stepSome_keeps {A T : Type} (field : otlptracegrpc.config -> T)
  (p : option A) f cfg :
  (forall v cfg', field (otlptracegrpc.apply cfg' (f v)) = field cfg') ->
  field (stepSome p f cfg) = field cfg.
Proof. intro H. destruct p; simpl; auto. Qed.

(** What [getOptions] does, in one step: it panics when the loop over the
    retry options does, and otherwise returns the options appended. *)
Lemma getOptions_outcome (o : OtlpGrpcSpanExporterConfig.t) :
  getOptions o =
    match applyRetryOptions (RetryOptions o) zeroRetryConfig with
    | Returned rc => Returned (passedOptions o rc)
    | Panicked => Panicked
    end.
Proof.
  unfold getOptions, passedOptions. cbv zeta.
  destruct (RetryOptions o) as [| option rest]; [reflexivity |].
  change (Nat.ltb 0 (length (option :: rest))) with true. cbv iota.
  destruct (applyRetryOptions (option :: rest) zeroRetryConfig); reflexivity.
Qed.

(** The loop over the retry options panics exactly on a nil option. *)
Lemma applyRetryOptions_panics (options : list (option RetryOption))
  (rc : otlptracegrpc.RetryConfig) :
  applyRetryOptions options rc = Panicked <-> In None options.
Proof.
  revert rc. induction options as [| [option |] rest IH]; intro rc; simpl.
  - split; [discriminate | intros []].
  - rewrite IH. split; [auto | intros [H | H]; [discriminate | exact H]].
  - split; auto.
Qed.

Lemma resolved (o : OtlpGrpcSpanExporterConfig.t)
  (rc : otlptracegrpc.RetryConfig) :
  otlptracegrpc.newConfig (passedOptions o rc) =
    step (negb (Z.eqb (Timeout o) 0)) (otlptracegrpc.WithTimeout (Timeout o))
   (stepSome (TlsCredentials o) otlptracegrpc.WithTLSCredentials
   (step (negb (String.eqb (ServiceConfig o) EmptyString))
         (otlptracegrpc.WithServiceConfig (ServiceConfig o))
   (step (Nat.ltb 0 (length (RetryOptions o)))
         (otlptracegrpc.WithRetry (rc))
   (step (negb (Z.eqb (ReconnectionPeriod o) 0))
         (otlptracegrpc.WithReconnectionPeriod (ReconnectionPeriod o))
   (step (Insecure o) otlptracegrpc.WithInsecure
   (step (Nat.ltb 0 (size (Headers o))) (otlptracegrpc.WithHeaders (Headers o))
   (stepSome (GrpcConn o) otlptracegrpc.WithGRPCConn
   (step (negb (String.eqb (Endpoint o) EmptyString))
         (otlptracegrpc.WithEndpoint (Endpoint o))
   (step (Nat.ltb 0 (length (DialOptions o)))
         (otlptracegrpc.WithDialOption (DialOptions o))
   (step (negb (String.eqb (Compressor o) EmptyString))
         (otlptracegrpc.WithCompressor (Compressor o))
         otlptracegrpc.defaultConfig)))))))))).
Proof.
  unfold otlptracegrpc.newConfig, passedOptions. cbv zeta.
  repeat (rewrite fold_appendIf || rewrite fold_appendSome). reflexivity.
Qed.

Ltac skip_steps field :=
  repeat first
    [ rewrite (step_keeps field) by (intro; reflexivity)
    | rewrite (stepSome_keeps field) by (intros; reflexivity) ].

Lemma resolved_GRPCConn (o : OtlpGrpcSpanExporterConfig.t)
  (rc : otlptracegrpc.RetryConfig) :
  otlptracegrpc.GRPCConn (otlptracegrpc.newConfig (passedOptions o rc)) = GrpcConn o.
Proof.
  rewrite resolved. skip_steps otlptracegrpc.GRPCConn.
  destruct (GrpcConn o); simpl; [reflexivity |].
  skip_steps otlptracegrpc.GRPCConn. reflexivity.
Qed.

Lemma resolved_Headers (o : OtlpGrpcSpanExporterConfig.t)
  (rc : otlptracegrpc.RetryConfig) :
  otlptracegrpc.Headers (otlptracegrpc.newConfig (passedOptions o rc)) = Headers o.
Proof.
  rewrite resolved. skip_steps otlptracegrpc.Headers.
  destruct (Nat.ltb 0 (size (Headers o))) eqn:E; simpl; [reflexivity |].
  skip_steps otlptracegrpc.Headers. simpl.
  apply Nat.ltb_ge in E. symmetry. apply map_size_empty_inv. lia.
Qed.

Lemma resolved_Timeout (o : OtlpGrpcSpanExporterConfig.t)
  (rc : otlptracegrpc.RetryConfig) :
  otlptracegrpc.Timeout (otlptracegrpc.newConfig (passedOptions o rc)) =
    if Z.eqb (Timeout o) 0 then (10 * Second)%Z else Timeout o.
Proof.
  rewrite resolved.
  destruct (Z.eqb (Timeout o) 0); simpl; [| reflexivity].
  skip_steps otlptracegrpc.Timeout. reflexivity.
Qed.

Lemma resolved_Retry (o : OtlpGrpcSpanExporterConfig.t)
  (rc : otlptracegrpc.RetryConfig) :
  otlptracegrpc.Retry (otlptracegrpc.newConfig (passedOptions o rc)) =
    if Nat.ltb 0 (length (RetryOptions o))
    then rc
    else otlptracegrpc.DefaultRetryConfig.
Proof.
  rewrite resolved. skip_steps otlptracegrpc.Retry.
  destruct (Nat.ltb 0 (length (RetryOptions o))); simpl; [reflexivity |].
  skip_steps otlptracegrpc.Retry. reflexivity.
Qed.

(** The client the SDK builds for a configuration that supplies a
    connection. *)
Lemma client_of_supplied (o : OtlpGrpcSpanExporterConfig.t)
  (rc : otlptracegrpc.RetryConfig) (c : grpc_ClientConn) :
  GrpcConn o = Some c ->
  otlptracegrpc.NewClient (passedOptions o rc) =
    {| otlptracegrpc.conn := otlptracegrpc.Supplied c;
       otlptracegrpc.metadata := Headers o;
       otlptracegrpc.exportTimeout :=
         if Z.eqb (Timeout o) 0 then (10 * Second)%Z else Timeout o;
       otlptracegrpc.retry :=
         if Nat.ltb 0 (length (RetryOptions o))
         then rc
         else otlptracegrpc.DefaultRetryConfig |}.
Proof.
  intro H. unfold otlptracegrpc.NewClient. cbv zeta.
  rewrite resolved_GRPCConn, resolved_Headers, resolved_Timeout, resolved_Retry, H.
  reflexivity.
Qed.

(** C3.  When [GrpcConn] is set, [getOptions] passes it on, and the
    exporter that [newSpanExporter] returns sends on the supplied connection;
    the fields that concern dialling (endpoint, insecure, TLS credentials,
    dial options, reconnection period, service config, compressor) are
    nowhere in it.  So two configurations that supply the same connection and
    agree on headers, retry options and timeout get the same from
    [newSpanExporter], whatever their dialling fields are. *)
Theorem supplied_connection_takes_precedence (sdk : Sdk) (ctx : Context)
  (o o' : OtlpGrpcSpanExporterConfig.t) (c : grpc_ClientConn) :
  GrpcConn o = Some c ->
  GrpcConn o' = Some c ->
  Headers o' = Headers o ->
  RetryOptions o' = RetryOptions o ->
  Timeout o' = Timeout o ->
  (forall options,
     getOptions o = Returned options ->
     In (otlptracegrpc.WithGRPCConn c) options
     /\ otlptracegrpc.conn (otlptracegrpc.NewClient options) = otlptracegrpc.Supplied c)
  /\ (forall exp,
     OtlpGrpcSpanExporterConfig.newSpanExporter sdk o ctx = Returned (Ok exp) ->
     exists rc,
       applyRetryOptions (RetryOptions o) zeroRetryConfig = Returned rc
       /\ exp = OtlpExporter
                 {| otlptracegrpc.conn := otlptracegrpc.Supplied c;
                    otlptracegrpc.metadata := Headers o;
                    otlptracegrpc.exportTimeout :=
                      if Z.eqb (Timeout o) 0 then (10 * Second)%Z else Timeout o;
                    otlptracegrpc.retry := retryPolicy o rc |})
  /\ OtlpGrpcSpanExporterConfig.newSpanExporter sdk o' ctx =
       OtlpGrpcSpanExporterConfig.newSpanExporter sdk o ctx.
Proof.
  intros Ho Ho' Hh Hr Ht.
  split; [| split].
  - intros options E. rewrite getOptions_outcome in E.
    destruct (applyRetryOptions (RetryOptions o) zeroRetryConfig) as [rc |];
      [| discriminate].
    injection E as <-. split.
    + unfold passedOptions. cbv zeta.
      repeat (rewrite in_appendIf || rewrite in_appendSome).
      do 7 left. right. exists c. split; [assumption | reflexivity].
    + rewrite (client_of_supplied o rc c Ho). reflexivity.
  - intros exp E. unfold OtlpGrpcSpanExporterConfig.newSpanExporter in E.
    rewrite getOptions_outcome in E.
    destruct (applyRetryOptions (RetryOptions o) zeroRetryConfig) as [rc |];
      [| discriminate].
    exists rc. split; [reflexivity |].
    unfold otlptracegrpc_New, otlptrace_New in E.
    rewrite (client_of_supplied o rc c Ho) in E.
    destruct (otlptrace_failure sdk ctx _); [discriminate |].
    injection E as <-. reflexivity.
  - unfold OtlpGrpcSpanExporterConfig.newSpanExporter.
    rewrite !getOptions_outcome, Hr.
    destruct (applyRetryOptions (RetryOptions o) zeroRetryConfig) as [rc |];
      [| reflexivity].
    unfold otlptracegrpc_New.
    rewrite (client_of_supplied o rc c Ho), (client_of_supplied o' rc c Ho').
    unfold retryPolicy. rewrite Hh, Hr, Ht. reflexivity.
Qed.

(** C3 at two configurations that differ in every dialling field. *)
Lemma supplied_connection_takes_precedence_witness :
  OtlpGrpcSpanExporterConfig.newSpanExporter quietSdk suppliedAndDialling
    context_Background =
    Returned
      (Ok (OtlpExporter
             {| otlptracegrpc.conn := otlptracegrpc.Supplied (ClientConn "collector:4317");
                otlptracegrpc.metadata := ∅;
                otlptracegrpc.exportTimeout := (10 * Second)%Z;
                otlptracegrpc.retry := otlptracegrpc.DefaultRetryConfig |}))
  /\ OtlpGrpcSpanExporterConfig.newSpanExporter quietSdk suppliedAndDialling
       context_Background =
     OtlpGrpcSpanExporterConfig.newSpanExporter quietSdk suppliedOnly context_Background.
Proof.
  destruct (supplied_connection_takes_precedence quietSdk context_Background
              suppliedOnly suppliedAndDialling (ClientConn "collector:4317")
              eq_refl eq_refl eq_refl eq_refl eq_refl) as (_ & _ & H3).
  destruct (supplied_connection_takes_precedence quietSdk context_Background
              suppliedAndDialling suppliedOnly (ClientConn "collector:4317")
              eq_refl eq_refl eq_refl eq_refl eq_refl) as (_ & H2 & _).
  split; [| exact H3].
  destruct (OtlpGrpcSpanExporterConfig.newSpanExporter quietSdk suppliedAndDialling
              context_Background) as [[exp | err] |] eqn:E;
    [| discriminate E | discriminate E].
  destruct (H2 exp eq_refl) as (rc & Hrc & ->).
  injection Hrc as <-. reflexivity.
Defined.

(** ** Retry options *)

(** Each retry option of the package writes one field and keeps the others. *)
Lemma retry_option_single_field (rc : otlptracegrpc.RetryConfig) (b : bool) (d : Duration) :
  RetryEnabled b rc =
    {| otlptracegrpc.Enabled := b;
       otlptracegrpc.InitialInterval := otlptracegrpc.InitialInterval rc;
       otlptracegrpc.MaxInterval := otlptracegrpc.MaxInterval rc;
       otlptracegrpc.MaxElapsedTime := otlptracegrpc.MaxElapsedTime rc |}
  /\ RetryInitialInterval d rc =
    {| otlptracegrpc.Enabled := otlptracegrpc.Enabled rc;
       otlptracegrpc.InitialInterval := d;
       otlptracegrpc.MaxInterval := otlptracegrpc.MaxInterval rc;
       otlptracegrpc.MaxElapsedTime := otlptracegrpc.MaxElapsedTime rc |}
  /\ RetryMaxInterval d rc =
    {| otlptracegrpc.Enabled := otlptracegrpc.Enabled rc;
       otlptracegrpc.InitialInterval := otlptracegrpc.InitialInterval rc;
       otlptracegrpc.MaxInterval := d;
       otlptracegrpc.MaxElapsedTime := otlptracegrpc.MaxElapsedTime rc |}
  /\ RetryMaxElapsedTime d rc =
    {| otlptracegrpc.Enabled := otlptracegrpc.Enabled rc;
       otlptracegrpc.InitialInterval := otlptracegrpc.InitialInterval rc;
       otlptracegrpc.MaxInterval := otlptracegrpc.MaxInterval rc;
       otlptracegrpc.MaxElapsedTime := d |}.
Proof. repeat split. Qed.

(** C2 (the code departs from it).  Whenever [RetryOptions] is not empty,
    the retry configuration handed to the SDK is the options applied to the
    zero value [RetryConfig{}], and [WithRetry] replaces the SDK's policy
    with it: a field no option sets is zero or false, not the default
    policy's value.  With the single option [RetryMaxElapsedTime] of two
    minutes, retrying ends up disabled with zero intervals, where applying
    the option to the default policy keeps retrying enabled with intervals of
    5 and 30 seconds. *)
Theorem retry_options_start_from_zero :
  (forall o : OtlpGrpcSpanExporterConfig.t,
     match getOptions o with
     | Returned options =>
         if Nat.ltb 0 (length (RetryOptions o))
         then applyRetryOptions (RetryOptions o) zeroRetryConfig =
                Returned (otlptracegrpc.retry (otlptracegrpc.NewClient options))
         else otlptracegrpc.retry (otlptracegrpc.NewClient options) =
                otlptracegrpc.DefaultRetryConfig
     | Panicked => In None (RetryOptions o)
     end)
  /\ getOptions onlyMaxElapsedTime =
       Returned
         [otlptracegrpc.WithRetry
            {| otlptracegrpc.Enabled := false;
               otlptracegrpc.InitialInterval := 0%Z;
               otlptracegrpc.MaxInterval := 0%Z;
               otlptracegrpc.MaxElapsedTime := (2 * Minute)%Z |}]
  /\ otlptracegrpc.retry
       (otlptracegrpc.NewClient
          [otlptracegrpc.WithRetry
             {| otlptracegrpc.Enabled := false;
                otlptracegrpc.InitialInterval := 0%Z;
                otlptracegrpc.MaxInterval := 0%Z;
                otlptracegrpc.MaxElapsedTime := (2 * Minute)%Z |}]) =
       {| otlptracegrpc.Enabled := false;
          otlptracegrpc.InitialInterval := 0%Z;
          otlptracegrpc.MaxInterval := 0%Z;
          otlptracegrpc.MaxElapsedTime := (2 * Minute)%Z |}
  /\ applyRetryOptions (RetryOptions onlyMaxElapsedTime) otlptracegrpc.DefaultRetryConfig =
       Returned
         {| otlptracegrpc.Enabled := true;
            otlptracegrpc.InitialInterval := (5 * Second)%Z;
            otlptracegrpc.MaxInterval := (30 * Second)%Z;
            otlptracegrpc.MaxElapsedTime := (2 * Minute)%Z |}.
Proof.
  split; [| repeat split].
  intro o. rewrite getOptions_outcome.
  destruct (applyRetryOptions (RetryOptions o) zeroRetryConfig) as [rc |] eqn:E.
  - unfold otlptracegrpc.NewClient. cbv zeta. simpl otlptracegrpc.retry.
    rewrite resolved_Retry.
    destruct (Nat.ltb 0 (length (RetryOptions o))); reflexivity.
  - apply applyRetryOptions_panics in E. exact E.
Qed.

End OtlpOptions.

(** ** Lifecycle: teardown *)

(** C4.  With a provider in [tp], both versions of [OtelEnd] flush first.  If
    the flush returns an error, that error is returned and the only call
    made on the provider is the flush: shutdown is not attempted.  Otherwise
    the provider is shut down after the flush and the result of the shutdown
    is returned. *)
Theorem OtelEnd_sequencing (sdk : Sdk) (endCtx : Context) (s : State)
  (p : TracerProvider) :
  tp s = Some p ->
  (forall err,
     ForceFlush_result sdk p (events s) = Some err ->
     OtelEnd sdk endCtx s = (Returned (Some err), logEvent (EvForceFlush p) s)
     /\ Legacy.OtelEnd sdk s = (Returned (Some err), logEvent (EvForceFlush p) s)
     /\ events (snd (OtelEnd sdk endCtx s)) = events s ++ [EvForceFlush p]
     /\ events (snd (Legacy.OtelEnd sdk s)) = events s ++ [EvForceFlush p])
  /\ (ForceFlush_result sdk p (events s) = None ->
      let r := Shutdown_result sdk p (events s ++ [EvForceFlush p]) in
      let s' := logEvent (EvShutdown p) (logEvent (EvForceFlush p) s) in
      OtelEnd sdk endCtx s = (Returned r, s')
      /\ Legacy.OtelEnd sdk s = (Returned r, s')
      /\ events s' = (events s ++ [EvForceFlush p]) ++ [EvShutdown p]).
Proof.
  intro Htp. split.
  - intros err Hflush.
    unfold OtelEnd, Legacy.OtelEnd, ForceFlush. rewrite Htp, Hflush. simpl.
    repeat split.
  - intro Hflush. cbv zeta.
    unfold OtelEnd, Legacy.OtelEnd, ForceFlush, Shutdown. rewrite Htp, Hflush. simpl.
    repeat split.
Qed.

(** C4 after a successful initialization, on a machine where flushing
    fails. *)
Lemma OtelEnd_sequencing_witness :
  let s := snd (Legacy.OtelInit offlineSdk "cli" consoleExporter initialState) in
  exists p,
    tp s = Some p
    /\ OtelEnd offlineSdk context_Background s =
         (Returned (Some "context deadline exceeded"), logEvent (EvForceFlush p) s)
    /\ events (snd (OtelEnd offlineSdk context_Background s)) = [EvForceFlush p].
Proof.
  cbv zeta.
  set (s := snd (Legacy.OtelInit offlineSdk "cli" consoleExporter initialState)).
  set (p := NewTracerProvider
              (StdoutExporter
                 (stdouttrace.newConfig
                    [stdouttrace.WithWriter os_Stdout; stdouttrace.WithPrettyPrint]))
              (resource.NewWithAttributes semconv.SchemaURL
                 [(semconv.ServiceNameKey, "go-cli"); (semconv.ServiceVersionKey, "demo")])).
  assert (Htp : tp s = Some p) by reflexivity.
  exists p. split; [exact Htp |].
  destruct (OtelEnd_sequencing offlineSdk context_Background s p Htp) as [Hfail _].
  destruct (Hfail "context deadline exceeded" eq_refl) as (H1 & _ & H3 & _).
  split; [exact H1 | exact H3].
Defined.

(** A call of the current [OtelInit] that does not return nil changes
    nothing. *)
Lemma OtelInit_failure_keeps_state (sdk : Sdk) (startCtx : Context)
  (resourceConf : ResourceConfig.t) (exporterConfig : option SpanExporterConfig)
  (s s' : State) (o : outcome (option error)) :
  OtelInit sdk startCtx resourceConf exporterConfig s = (o, s') ->
  o <> Returned None ->
  s' = s.
Proof.
  unfold OtelInit.
  destruct (ResourceConfig.newResource sdk resourceConf startCtx) as [res | err];
    [| intros [= <- <-]; reflexivity].
  destruct exporterConfig as [cfg |]; [| intros [= <- <-]; reflexivity].
  destruct (newSpanExporter sdk cfg startCtx) as [[exp | err] |];
    intros [= <- <-]; [intro H; contradict H | |]; reflexivity.
Qed.

Lemma finish_failure (built : result SpanExporter) (res : resource.Resource)
  (s s' : State) (o : outcome (option error)) :
  Legacy.finish built res s = (o, s') ->
  o <> Returned None ->
  s' = s /\ exists err, built = Err err /\ o = Returned (Some err).
Proof.
  destruct built as [exp | err]; simpl; intros [= <- <-] H.
  - contradict H. reflexivity.
  - split; [reflexivity | exists err; split; reflexivity].
Qed.

(** A call of the legacy [OtelInit] that does not return nil has stored the
    name and registered nothing. *)
Lemma legacy_OtelInit_failure (sdk : Sdk) (name otelExporter : string)
  (s s' : State) (o : outcome (option error)) :
  Legacy.OtelInit sdk name otelExporter s = (o, s') ->
  o <> Returned None ->
  tp s' = tp s
  /\ otel_TracerProvider s' = otel_TracerProvider s
  /\ otel_TextMapPropagator s' = otel_TextMapPropagator s
  /\ serviceName s' = name
  /\ exists err, o = Returned (Some err).
Proof.
  unfold Legacy.OtelInit.
  destruct (Legacy.newResource sdk) as [res | err].
  2:{ intros [= <- <-] _. simpl. repeat split. exists err. reflexivity. }
  destruct (String.eqb otelExporter consoleExporter).
  { intros H Ho. apply finish_failure in H as (-> & err & _ & ->); [| exact Ho].
    simpl. repeat split. exists err. reflexivity. }
  destruct (String.eqb otelExporter fileExporter).
  { destruct (os_Create_failure sdk _) as [fErr |].
    - intros [= <- <-] _. simpl. repeat split. exists fErr. reflexivity.
    - intros H Ho. apply finish_failure in H as (-> & err & _ & ->); [| exact Ho].
      simpl. repeat split. exists err. reflexivity. }
  destruct (String.eqb otelExporter otlpExporter).
  { intros H Ho. apply finish_failure in H as (-> & err & _ & ->); [| exact Ho].
    simpl. repeat split. exists err. reflexivity. }
  intros [= <- <-] _. simpl. repeat split. eexists. reflexivity.
Qed.

Lemma uninitialized_tp_nil (s : State) : uninitialized s -> tp s = None.
Proof.
  induction 1 as [| sdk startCtx rc ec s o s' _ IH Hinit Ho | sdk endCtx s o s' _ IH Hend].
  - reflexivity.
  - apply OtelInit_failure_keeps_state in Hinit; [subst s'; exact IH | exact Ho].
  - unfold OtelEnd in Hend. rewrite IH in Hend. injection Hend as _ <-. exact IH.
Qed.

Lemma legacy_uninitialized_tp_nil (s : State) : legacy_uninitialized s -> tp s = None.
Proof.
  induction 1 as [| sdk name kind s o s' _ IH Hinit Ho | sdk s o s' _ IH Hend].
  - reflexivity.
  - apply legacy_OtelInit_failure in Hinit as (Htp & _); [| exact Ho].
    rewrite Htp. exact IH.
  - unfold Legacy.OtelEnd in Hend. rewrite IH in Hend. injection Hend as _ <-. exact IH.
Qed.

(** C9.  As long as no call of [OtelInit] has returned nil, the package
    variable [tp] is nil, and both versions of [OtelEnd] panic on it instead
    of returning an error; the state is left as it was. *)
Theorem OtelEnd_before_init_panics (s : State) :
  (uninitialized s ->
     forall sdk endCtx, OtelEnd sdk endCtx s = (Panicked, s))
  /\ (legacy_uninitialized s ->
     forall sdk, Legacy.OtelEnd sdk s = (Panicked, s)).
Proof.
  split; intro H.
  - intros sdk endCtx. unfold OtelEnd. rewrite (uninitialized_tp_nil s H). reflexivity.
  - intro sdk. unfold Legacy.OtelEnd. rewrite (legacy_uninitialized_tp_nil s H). reflexivity.
Qed.

(** C9 in a fresh process, and after an initialization that failed because
    no collector could be reached. *)
Lemma OtelEnd_before_init_panics_witness :
  OtelEnd quietSdk context_Background initialState = (Panicked, initialState)
  /\ Legacy.OtelEnd quietSdk
       (snd (Legacy.OtelInit offlineSdk "cli" otlpExporter initialState)) =
     (Panicked, snd (Legacy.OtelInit offlineSdk "cli" otlpExporter initialState)).
Proof.
  split.
  - apply (proj1 (OtelEnd_before_init_panics initialState)). apply uninit_start.
  - apply (proj2 (OtelEnd_before_init_panics
                    (snd (Legacy.OtelInit offlineSdk "cli" otlpExporter initialState)))).
    apply (legacy_uninit_init offlineSdk "cli" otlpExporter initialState
             (Returned (Some "context deadline exceeded"))).
    + apply legacy_uninit_start.
    + reflexivity.
    + discriminate.
Defined.

(** ** Lifecycle: failed initialization *)

(** C5 (as amended).  When resource resolution or exporter construction
    fails, either initializer returns that error, and no tracer provider is
    constructed or registered and no propagator is installed.  The current
    initializer leaves the whole state as it was.  The legacy initializer has
    stored the service name by then: it leaves [tp] and both registrations as
    they were and [serviceName] holds the name it was given. *)
Theorem failed_initialization (sdk : Sdk) (s : State) :
  (forall startCtx resourceConf exporterConfig err,
     ResourceConfig.newResource sdk resourceConf startCtx = Err err ->
     OtelInit sdk startCtx resourceConf exporterConfig s = (Returned (Some err), s))
  /\ (forall startCtx resourceConf cfg res err,
     ResourceConfig.newResource sdk resourceConf startCtx = Ok res ->
     newSpanExporter sdk cfg startCtx = Returned (Err err) ->
     OtelInit sdk startCtx resourceConf (Some cfg) s = (Returned (Some err), s))
  /\ (forall startCtx resourceConf exporterConfig o s',
     OtelInit sdk startCtx resourceConf exporterConfig s = (o, s') ->
     o <> Returned None ->
     s' = s)
  /\ (forall name otelExporter err,
     Legacy.newResource sdk = Err err ->
     Legacy.OtelInit sdk name otelExporter s
       = (Returned (Some err), Legacy.setServiceName name s))
  /\ (forall name res err,
     Legacy.newResource sdk = Ok res ->
     Legacy.newConsoleExporter sdk os_Stdout = Err err ->
     Legacy.OtelInit sdk name consoleExporter s
       = (Returned (Some err), Legacy.setServiceName name s))
  /\ (forall name res err,
     Legacy.newResource sdk = Ok res ->
     os_Create_failure sdk (viper_GetString sdk "OTEL_FILE_SPAN_EXPORTER_NAME") = Some err ->
     Legacy.OtelInit sdk name fileExporter s
       = (Returned (Some err), Legacy.setServiceName name s))
  /\ (forall name res err,
     Legacy.newResource sdk = Ok res ->
     os_Create_failure sdk (viper_GetString sdk "OTEL_FILE_SPAN_EXPORTER_NAME") = None ->
     Legacy.newConsoleExporter sdk
       (os_File (viper_GetString sdk "OTEL_FILE_SPAN_EXPORTER_NAME")) = Err err ->
     Legacy.OtelInit sdk name fileExporter s
       = (Returned (Some err),
          logEvent (EvCreate (viper_GetString sdk "OTEL_FILE_SPAN_EXPORTER_NAME"))
            (Legacy.setServiceName name s)))
  /\ (forall name res err,
     Legacy.newResource sdk = Ok res ->
     Legacy.newOtlpExporter sdk = Err err ->
     Legacy.OtelInit sdk name otlpExporter s
       = (Returned (Some err), Legacy.setServiceName name s))
  /\ (forall name otelExporter o s',
     Legacy.OtelInit sdk name otelExporter s = (o, s') ->
     o <> Returned None ->
     tp s' = tp s
     /\ otel_TracerProvider s' = otel_TracerProvider s
     /\ otel_TextMapPropagator s' = otel_TextMapPropagator s
     /\ serviceName s' = name).
Proof.
  repeat apply conj.
  - intros startCtx rc ec err H. unfold OtelInit. rewrite H. reflexivity.
  - intros startCtx rc cfg res err H1 H2. unfold OtelInit. rewrite H1, H2. reflexivity.
  - intros startCtx rc ec o s'. apply OtelInit_failure_keeps_state.
  - intros name kind err H. unfold Legacy.OtelInit. rewrite H. reflexivity.
  - intros name res err H1 H2. unfold Legacy.OtelInit. rewrite H1. simpl.
    rewrite H2. reflexivity.
  - intros name res err H1 H2. unfold Legacy.OtelInit. rewrite H1. simpl.
    rewrite H2. reflexivity.
  - intros name res err H1 H2 H3. unfold Legacy.OtelInit. rewrite H1. simpl.
    rewrite H2, H3. reflexivity.
  - intros name res err H1 H2. unfold Legacy.OtelInit. rewrite H1. simpl.
    rewrite H2. reflexivity.
  - intros name kind o s' H Ho.
    destruct (legacy_OtelInit_failure sdk name kind s s' o H Ho) as (A & B & C & D & _).
    auto.
Qed.

(** C5 on a machine where no collector can be reached: the current
    initializer with an OTLP configuration, and the legacy one with the kind
    "otlp". *)
Lemma failed_initialization_witness :
  OtelInit offlineSdk context_Background zeroResourceConfig
    (Some (OtlpGrpc zeroOtlpConfig)) initialState
    = (Returned (Some "context deadline exceeded"), initialState)
  /\ Legacy.OtelInit offlineSdk "cli" otlpExporter initialState
    = (Returned (Some "context deadline exceeded"),
       Legacy.setServiceName "cli" initialState).
Proof.
  destruct (failed_initialization offlineSdk initialState)
    as (_ & Hexp & _ & _ & _ & _ & _ & Hotlp & _).
  split.
  - apply (Hexp context_Background zeroResourceConfig (OtlpGrpc zeroOtlpConfig)
             (resource.NewWithAttributes semconv.SchemaURL [])
             "context deadline exceeded"); reflexivity.
  - apply (Hotlp "cli"
             (resource.NewWithAttributes semconv.SchemaURL
                [(semconv.ServiceNameKey, "go-cli"); (semconv.ServiceVersionKey, "demo")])
             "context deadline exceeded"); reflexivity.
Defined.

(** C5 as first stated does not hold of the legacy initializer: it assigns
    [serviceName] before anything can fail, so a failed exporter construction
    leaves the state changed. *)
Lemma failed_initialization_counterexample :
  ~ (forall (sdk : Sdk) (name : string) (s : State) (err : error),
       Legacy.newOtlpExporter sdk = Err err ->
       Legacy.OtelInit sdk name otlpExporter s = (Returned (Some err), s)).
Proof.
  intro H.
  specialize (H offlineSdk "cli" initialState "context deadline exceeded" eq_refl).
  discriminate H.
Qed.

(** ** Lifecycle: unknown exporter kind *)

Lemma no_case_matches (otelExporter : string) :
  otelExporter <> fileExporter ->
  otelExporter <> consoleExporter ->
  otelExporter <> otlpExporter ->
  String.eqb otelExporter consoleExporter = false
  /\ String.eqb otelExporter fileExporter = false
  /\ String.eqb otelExporter otlpExporter = false.
Proof. intros. repeat split; apply String.eqb_neq; assumption. Qed.

(** C6 (as amended).  For every exporter-kind string other than "file",
    "console" and "otlp", the legacy initializer returns an error, does not
    panic, and constructs and registers no tracer provider.  When the legacy
    resource could be built, the error is the formatted "not implemented"
    error naming the string; otherwise it is the error of the resource. *)
Theorem unknown_exporter_kind (sdk : Sdk) (name otelExporter : string) (s : State) :
  otelExporter <> fileExporter ->
  otelExporter <> consoleExporter ->
  otelExporter <> otlpExporter ->
  (forall res,
     Legacy.newResource sdk = Ok res ->
     Legacy.OtelInit sdk name otelExporter s =
       (Returned (Some ("Exporter type '" ++ otelExporter ++ "' is not implemented")%string),
        Legacy.setServiceName name s))
  /\ (forall err,
     Legacy.newResource sdk = Err err ->
     Legacy.OtelInit sdk name otelExporter s =
       (Returned (Some err), Legacy.setServiceName name s))
  /\ (exists err,
     Legacy.OtelInit sdk name otelExporter s =
       (Returned (Some err), Legacy.setServiceName name s))
  /\ tp (snd (Legacy.OtelInit sdk name otelExporter s)) = tp s
  /\ otel_TracerProvider (snd (Legacy.OtelInit sdk name otelExporter s))
       = otel_TracerProvider s.
Proof.
  intros Hf Hc Ho.
  destruct (no_case_matches otelExporter Hf Hc Ho) as (Ec & Ef & Eo).
  unfold Legacy.OtelInit. rewrite Ec, Ef, Eo.
  destruct (Legacy.newResource sdk) as [res | err]; simpl.
  - split; [intros res' _; reflexivity |].
    split; [intros err' E; discriminate E |].
    split; [eexists; reflexivity |].
    split; reflexivity.
  - split; [intros res' E; discriminate E |].
    split; [intros err' [= ->]; reflexivity |].
    split; [eexists; reflexivity |].
    split; reflexivity.
Qed.

(** C6 at the kind "zipkin". *)
Lemma unknown_exporter_kind_witness :
  Legacy.OtelInit quietSdk "cli" "zipkin" initialState =
    (Returned (Some "Exporter type 'zipkin' is not implemented"),
     Legacy.setServiceName "cli" initialState).
Proof.
  destruct (unknown_exporter_kind quietSdk "cli" "zipkin" initialState)
    as (H & _); try discriminate.
  apply (H (resource.NewWithAttributes semconv.SchemaURL
              (resource.attrs (resource_Default quietSdk) ++
               [(semconv.ServiceNameKey, "go-cli"); (semconv.ServiceVersionKey, "demo")]))).
  reflexivity.
Defined.

(** C6 as first stated overlooks that the resource is built before the
    switch: when merging into the default resource is refused, that error is
    returned for an unknown kind too. *)
Lemma unknown_exporter_kind_counterexample :
  ~ (forall (sdk : Sdk) (name otelExporter : string) (s : State),
       otelExporter <> fileExporter ->
       otelExporter <> consoleExporter ->
       otelExporter <> otlpExporter ->
       fst (Legacy.OtelInit sdk name otelExporter s) =
         Returned (Some (Sprintf_not_implemented otelExporter))).
Proof.
  intro H.
  specialize (H conflictingSdk "cli" "zipkin" initialState).
  assert (E : fst (Legacy.OtelInit conflictingSdk "cli" "zipkin" initialState) =
              Returned (Some "cannot merge resource due to conflicting Schema URL"))
    by reflexivity.
  rewrite E in H.
  assert (D : Returned (Some "cannot merge resource due to conflicting Schema URL") =
              Returned (Some (Sprintf_not_implemented "zipkin")))
    by (apply H; discriminate).
  discriminate D.
Qed.

(** ** Trace-context propagation through the environment *)

Section RoundTrip.

Lemma ToLower_traceParent : strings.ToLower traceParent = propagation.traceparentHeader.
Proof. reflexivity. Qed.

Lemma append_cons (c : ascii) (a r : string) :
  (String c a ++ r = String c (a ++ r))%string.
Proof. reflexivity. Qed.

Lemma append_empty (r : string) : (EmptyString ++ r = r)%string.
Proof. reflexivity. Qed.

Lemma decode_encodeByte (v : byte) (s : string) :
  hex.DecodeString (hex.encodeByte v ++ s)%string =
    match hex.DecodeString s with
    | Some bs => Some (v :: bs)
    | None => None
    end.
Proof. destruct v; reflexivity. Qed.

Lemma decode_encode (bs : list byte) :
  hex.DecodeString (hex.EncodeToString bs) = Some bs.
Proof.
  induction bs as [| v bs IH]; [reflexivity |].
  cbn [hex.EncodeToString]. rewrite decode_encodeByte, IH. reflexivity.
Qed.

Lemma length_encode (bs : list byte) :
  String.length (hex.EncodeToString bs) = 2 * length bs.
Proof.
  induction bs as [| v bs IH]; [reflexivity |].
  cbn [hex.EncodeToString]. unfold hex.encodeByte. cbv zeta.
  rewrite !append_cons, append_empty. cbn [String.length]. rewrite IH. cbn [length]. lia.
Qed.

Lemma cut_app (a r : string) :
  propagation.cut (String.length a) (a ++ r)%string = Some (a, r).
Proof.
  induction a as [| c a IH].
  - rewrite append_empty. reflexivity.
  - rewrite append_cons. cbn [String.length propagation.cut]. rewrite IH. reflexivity.
Qed.

Lemma cut_encode (n : nat) (bs : list byte) (r : string) :
  length bs = n ->
  propagation.cut (2 * n) (hex.EncodeToString bs ++ r)%string =
    Some (hex.EncodeToString bs, r).
Proof.
  intros <-. rewrite <- (length_encode bs). apply cut_app.
Qed.

Lemma sampled_flag_small (f : byte) :
  N.ltb 2 (Byte.to_N (trace.byte_and f trace.FlagsSampled)) = false.
Proof. destruct f; reflexivity. Qed.

Lemma cut_whole (a : string) : propagation.cut (String.length a) a = Some (a, EmptyString).
Proof.
  induction a as [| c a IH]; [reflexivity |].
  cbn [String.length propagation.cut]. rewrite IH. reflexivity.
Qed.

Lemma dash_app (r : string) : propagation.dash ("-" ++ r)%string = Some r.
Proof. reflexivity. Qed.

Lemma parse_traceparent (sc : trace.SpanContext) (tracestate : string) :
  trace.wellSized sc ->
  propagation.parseTraceparent (propagation.traceparent sc) tracestate =
    Some {| trace.TraceID := trace.TraceID sc;
            trace.SpanID := trace.SpanID sc;
            trace.TraceFlags :=
              trace.byte_and (trace.byte_and (trace.TraceFlags sc) trace.FlagsSampled)
                trace.FlagsSampled;
            trace.TraceState := tracestate;
            trace.Remote := true |}.
Proof.
  intros [Ht Hs].
  unfold propagation.parseTraceparent, propagation.traceparent.
  change (propagation.cut 2 ("00" ++ ?x)%string) with (Some ("00", x)).
  cbn [mbind option_bind]. rewrite dash_app. cbn [mbind option_bind].
  change 32 with (2 * 16). rewrite (cut_encode 16 _ _ Ht).
  cbn [mbind option_bind]. rewrite dash_app. cbn [mbind option_bind].
  change 16 with (2 * 8). rewrite (cut_encode 8 _ _ Hs).
  cbn [mbind option_bind]. rewrite dash_app. cbn [mbind option_bind].
  change 2 with (String.length
    (hex.EncodeToString [trace.byte_and (trace.TraceFlags sc) trace.FlagsSampled])) at 1.
  rewrite cut_whole.
  cbn [mbind option_bind String.eqb negb].
  change (hex.DecodeString "00") with (Some [Byte.x00]).
  rewrite !decode_encode.
  cbn [mbind option_bind].
  change (Byte.eqb Byte.x00 Byte.xff) with false.
  change (Byte.eqb Byte.x00 Byte.x00) with true.
  cbn [andb]. rewrite sampled_flag_small. reflexivity.
Qed.

Lemma inject_traceparent (ctx : Context) (sc : trace.SpanContext) :
  ctx_span ctx = Some sc ->
  trace.IsValid sc = true ->
  propagation.Get (propagation.Inject installed ctx ∅) propagation.traceparentHeader =
    propagation.traceparent sc.
Proof.
  intros Hsc Hvalid.
  unfold installed, propagation.Inject. cbn [fold_left propagation.inject1].
  unfold propagation.TraceContext_Inject, propagation.Baggage_Inject, SpanContextFromContext.
  rewrite Hsc, Hvalid. cbn [negb]. unfold propagation.Get.
  destruct (String.eqb (ctx_baggage ctx) EmptyString);
    [| rewrite lookup_insert_ne by discriminate];
    rewrite lookup_insert_eq; reflexivity.
Qed.

Lemma traceparent_not_empty (sc : trace.SpanContext) :
  String.eqb (propagation.traceparent sc) EmptyString = false.
Proof. reflexivity. Qed.

Lemma Get_singleton (key value : string) :
  propagation.Get {[ key := value ]} key = value.
Proof. unfold propagation.Get. rewrite lookup_singleton_eq. reflexivity. Qed.

Lemma Get_singleton_other (key value other : string) :
  key <> other -> propagation.Get {[ key := value ]} other = EmptyString.
Proof.
  intro H. unfold propagation.Get. rewrite lookup_singleton_ne by exact H. reflexivity.
Qed.

Lemma extract_singleton (sc : trace.SpanContext) :
  trace.wellSized sc ->
  trace.IsValid sc = true ->
  propagation.extract
    {[ propagation.traceparentHeader := propagation.traceparent sc ]} = readBack sc.
Proof.
  intros Hsize Hvalid. unfold propagation.extract. cbv zeta.
  rewrite Get_singleton, Get_singleton_other by discriminate.
  rewrite traceparent_not_empty, (parse_traceparent sc _ Hsize).
  fold (readBack sc).
  change (trace.IsValid (readBack sc)) with (trace.IsValid sc).
  rewrite Hvalid. reflexivity.
Qed.

Lemma extract_traceparent (sc : trace.SpanContext) :
  trace.wellSized sc ->
  trace.IsValid sc = true ->
  SpanContextFromContext
    (propagation.Extract installed context_Background
       {[ propagation.traceparentHeader := propagation.traceparent sc ]}) = readBack sc.
Proof.
  intros Hsize Hvalid.
  unfold installed, propagation.Extract. cbn [fold_left propagation.extract1].
  unfold propagation.TraceContext_Extract. cbv zeta.
  rewrite (extract_singleton sc Hsize Hvalid).
  change (trace.IsValid (readBack sc)) with (trace.IsValid sc).
  rewrite Hvalid. cbn [negb].
  unfold propagation.Baggage_Extract. cbv zeta.
  rewrite Get_singleton_other by discriminate. reflexivity.
Qed.
Lemma OtelInit_installs (sdk : Sdk) (startCtx : Context)
  (resourceConf : ResourceConfig.t) (exporterConfig : option SpanExporterConfig)
  (s s' : State) :
  OtelInit sdk startCtx resourceConf exporterConfig s = (Returned None, s') ->
  otel_TextMapPropagator s' = installed /\ tp s' = otel_TracerProvider s' /\ tp s' <> None.
Proof.
  unfold OtelInit.
  destruct (ResourceConfig.newResource sdk resourceConf startCtx) as [res | err];
    [| discriminate].
  destruct exporterConfig as [cfg |]; [| discriminate].
  destruct (newSpanExporter sdk cfg startCtx) as [[exp | err] |];
    [| discriminate | discriminate].
  intros [= <-]. simpl. repeat split. discriminate.
Qed.

Lemma legacy_OtelInit_installs (sdk : Sdk) (name otelExporter : string) (s s' : State) :
  Legacy.OtelInit sdk name otelExporter s = (Returned None, s') ->
  otel_TextMapPropagator s' = installed /\ tp s' = otel_TracerProvider s' /\ tp s' <> None.
Proof.
  unfold Legacy.OtelInit.
  destruct (Legacy.newResource sdk) as [res | err]; [| discriminate].
  destruct (String.eqb otelExporter consoleExporter).
  { intro H. apply finish_success in H as (exp & _ & ->). simpl.
    repeat split. discriminate. }
  destruct (String.eqb otelExporter fileExporter).
  { destruct (os_Create_failure sdk _); [discriminate |].
    intro H. apply finish_success in H as (exp & _ & ->). simpl.
    repeat split. discriminate. }
  destruct (String.eqb otelExporter otlpExporter); [| discriminate].
  intro H. apply finish_success in H as (exp & _ & ->). simpl.
  repeat split. discriminate.
Qed.

(** C8 (as amended).  Once the composite trace-context and baggage
    propagator is the process-wide propagator, as it is after either
    initializer has succeeded, then for every context that carries a valid
    span context [GetTraceParentEnv] returns [TRACEPARENT=<value>], where
    <value> is the traceparent header of that span context, and extracting
    from a carrier that maps "traceparent" to <value> yields a span context
    with the same trace identifier and the same span identifier. *)
Theorem traceparent_round_trip (s : State) (ctx : Context) (sc : trace.SpanContext) :
  otel_TextMapPropagator s = installed ->
  ctx_span ctx = Some sc ->
  trace.wellSized sc ->
  trace.IsValid sc = true ->
  let value := propagation.traceparent sc in
  let ctx' :=
    propagation.Extract (otel_TextMapPropagator s) context_Background
      {[ "traceparent" := value ]} in
  GetTraceParentEnv s ctx = ("TRACEPARENT=" ++ value)%string
  /\ Legacy.GetTraceParentEnv s ctx = ("TRACEPARENT=" ++ value)%string
  /\ trace.TraceID (SpanContextFromContext ctx') = trace.TraceID sc
  /\ trace.SpanID (SpanContextFromContext ctx') = trace.SpanID sc.
Proof.
  intros Hinstalled Hsc Hsize Hvalid. cbv zeta.
  unfold GetTraceParentEnv, Legacy.GetTraceParentEnv. cbv zeta.
  rewrite Hinstalled, ToLower_traceParent, (inject_traceparent ctx sc Hsc Hvalid).
  split; [reflexivity | split; [reflexivity |]].
  change "traceparent" with propagation.traceparentHeader.
  rewrite (extract_traceparent sc Hsize Hvalid).
  split; reflexivity.
Qed.

(** C8 after a successful initialization, at the example of the
    trace-context recommendation. *)
Lemma traceparent_round_trip_witness :
  let s := snd (OtelInit quietSdk context_Background zeroResourceConfig
                  (Some (Console plainConsole)) initialState) in
  GetTraceParentEnv s sampleContext =
    "TRACEPARENT=00-4bf92f3577b34da6a3ce929d0e0e4736-00f067aa0ba902b7-01"
  /\ trace.TraceID
       (SpanContextFromContext
          (propagation.Extract (otel_TextMapPropagator s) context_Background
             {[ "traceparent" := propagation.traceparent sampleSpanContext ]})) =
     trace.TraceID sampleSpanContext.
Proof.
  cbv zeta.
  destruct (traceparent_round_trip
              (snd (OtelInit quietSdk context_Background zeroResourceConfig
                      (Some (Console plainConsole)) initialState))
              sampleContext sampleSpanContext
              eq_refl eq_refl (conj eq_refl eq_refl) eq_refl) as (H1 & _ & H3 & _).
  split; [exact H1 | exact H3].
Defined.

(** C8 as first stated says nothing of the propagator.  In a process where
    no initializer has succeeded the no-op propagator injects nothing, the
    value is empty, and no trace identifier can be read back from it. *)
Lemma traceparent_round_trip_counterexample :
  ~ (forall (s : State) (ctx : Context) (sc : trace.SpanContext),
       ctx_span ctx = Some sc ->
       trace.wellSized sc ->
       trace.IsValid sc = true ->
       exists value,
         GetTraceParentEnv s ctx = ("TRACEPARENT=" ++ value)%string
         /\ trace.TraceID
              (SpanContextFromContext
                 (propagation.Extract installed context_Background
                    {[ "traceparent" := value ]})) = trace.TraceID sc).
Proof.
  intro H.
  destruct (H initialState sampleContext sampleSpanContext
              eq_refl (conj eq_refl eq_refl) eq_refl) as (value & Hvalue & Hid).
  unfold GetTraceParentEnv in Hvalue. cbv zeta in Hvalue.
  cbn [initialState otel_TextMapPropagator propagation.Inject] in Hvalue.
  unfold propagation.Get in Hvalue. rewrite lookup_empty in Hvalue.
  cbv in Hvalue. injection Hvalue as Hvalue. subst value.
  unfold installed, propagation.Extract in Hid.
  cbn [fold_left propagation.extract1] in Hid.
  unfold propagation.TraceContext_Extract, propagation.extract in Hid.
  cbv zeta in Hid.
  rewrite Get_singleton in Hid. cbn [String.eqb trace.IsValid] in Hid.
  change (trace.IsValid trace.zero) with false in Hid. cbn [negb] in Hid.
  unfold propagation.Baggage_Extract in Hid. cbv zeta in Hid.
  rewrite Get_singleton_other in Hid by discriminate.
  discriminate Hid.
Qed.

End RoundTrip.

(** * Further properties of the package *)

(** ** Conditional appends: no repetition, bounded length *)

Lemma NoDup_snoc {A : Type} (l : list A) (x : A) :
  List.NoDup l -> ~ In x l -> List.NoDup (l ++ [x]).
Proof.
  induction l as [| y l IH]; simpl; intros Hl Hx.
  - constructor; [intros [] | constructor].
  - inversion Hl as [| ? ? Hy Hl']; subst. constructor.
    + rewrite in_app_iff. simpl. intuition.
    + apply IH; [exact Hl' | intuition].
Qed.

Lemma NoDup_appendIf {A : Type} (cond : bool) (x : A) (l : list A) :
  List.NoDup l -> ~ In x l -> List.NoDup (appendIf cond x l).
Proof. destruct cond; simpl; [apply NoDup_snoc | auto]. Qed.

Lemma length_appendIf {A : Type} (cond : bool) (x : A) (l : list A) (n : nat) :
  length l <= n -> length (appendIf cond x l) <= S n.
Proof.
  destruct cond; simpl; [| lia]. rewrite length_app. simpl. lia.
Qed.

Lemma length_appendIf_ge {A : Type} (cond : bool) (x : A) (l : list A) (n : nat) :
  n <= length l -> n <= length (appendIf cond x l).
Proof.
  destruct cond; simpl; [| lia]. rewrite length_app. simpl. lia.
Qed.

Lemma appendIf_keeps_prefix {A : Type} (cond : bool) (x : A) (p l : list A) :
  (exists rest, l = p ++ rest) -> exists rest, appendIf cond x l = p ++ rest.
Proof.
  intros [rest ->]. destruct cond; simpl.
  - exists (rest ++ [x]). symmetry. apply app_assoc.
  - exists rest. reflexivity.
Qed.

Lemma NoDup_appendSome {A B : Type} (p : option A) (f : A -> B) (l : list B) :
  List.NoDup l -> (forall v, ~ In (f v) l) -> List.NoDup (appendSome p f l).
Proof. destruct p; simpl; [intros; apply NoDup_snoc; auto | auto]. Qed.

Lemma length_appendSome {A B : Type} (p : option A) (f : A -> B) (l : list B) (n : nat) :
  length l <= n -> length (appendSome p f l) <= S n.
Proof.
  destruct p; simpl; [| lia]. rewrite length_app. simpl. lia.
Qed.

(** ** The OTLP option builder, field by field *)

Section OtlpFields.

Import OtlpGrpcSpanExporterConfig.

Lemma nonempty_string (x : string) :
  negb (String.eqb x EmptyString) = true <-> x <> EmptyString.
Proof. rewrite negb_true_iff. apply String.eqb_neq. Qed.

Lemma nonzero_duration (d : Duration) : negb (Z.eqb d 0) = true <-> d <> 0%Z.
Proof. rewrite negb_true_iff. apply Z.eqb_neq. Qed.

Lemma nonempty_map (m : gmap string string) : Nat.ltb 0 (size m) = true <-> m <> ∅.
Proof.
  rewrite Nat.ltb_lt. split.
  - intros H ->. rewrite map_size_empty in H. lia.
  - intro H. destruct (size m) eqn:E; [| lia].
    contradict H. apply map_size_empty_inv. exact E.
Qed.

(** An option of another kind than those already appended is not among
    them. *)
Ltac absent_otlp H :=
  first
    [ apply in_appendIf in H; destruct H as [H | [_ H]];
      [absent_otlp H | discriminate H]
    | apply in_appendSome in H; destruct H as [H | (? & _ & H)];
      [absent_otlp H | discriminate H]
    | destruct H ].

Lemma passedOptions_NoDup (o : OtlpGrpcSpanExporterConfig.t)
  (rc : otlptracegrpc.RetryConfig) : List.NoDup (passedOptions o rc).
Proof.
  unfold passedOptions. cbv zeta.
  repeat (first [apply NoDup_appendIf | apply NoDup_appendSome; [| intro]];
          [| let H := fresh "H" in intro H; absent_otlp H]).
  constructor.
Qed.

Lemma passedOptions_length (o : OtlpGrpcSpanExporterConfig.t)
  (rc : otlptracegrpc.RetryConfig) : length (passedOptions o rc) <= 11.
Proof.
  unfold passedOptions. cbv zeta.
  repeat (apply length_appendIf || apply length_appendSome). simpl. lia.
Qed.

Lemma in_passedOptions (o : OtlpGrpcSpanExporterConfig.t)
  (rc : otlptracegrpc.RetryConfig) (opt : otlptracegrpc.Option) :
  In opt (passedOptions o rc) <->
    (Compressor o <> EmptyString /\ opt = otlptracegrpc.WithCompressor (Compressor o))
    \/ (DialOptions o <> [] /\ opt = otlptracegrpc.WithDialOption (DialOptions o))
    \/ (Endpoint o <> EmptyString /\ opt = otlptracegrpc.WithEndpoint (Endpoint o))
    \/ (exists c, GrpcConn o = Some c /\ opt = otlptracegrpc.WithGRPCConn c)
    \/ (Headers o <> ∅ /\ opt = otlptracegrpc.WithHeaders (Headers o))
    \/ (Insecure o = true /\ opt = otlptracegrpc.WithInsecure)
    \/ (ReconnectionPeriod o <> 0%Z /\
        opt = otlptracegrpc.WithReconnectionPeriod (ReconnectionPeriod o))
    \/ (RetryOptions o <> [] /\ opt = otlptracegrpc.WithRetry rc)
    \/ (ServiceConfig o <> EmptyString /\
        opt = otlptracegrpc.WithServiceConfig (ServiceConfig o))
    \/ (exists creds, TlsCredentials o = Some creds /\
        opt = otlptracegrpc.WithTLSCredentials creds)
    \/ (Timeout o <> 0%Z /\ opt = otlptracegrpc.WithTimeout (Timeout o)).
Proof.
  unfold passedOptions. cbv zeta.
  repeat (rewrite in_appendIf || rewrite in_appendSome).
  rewrite !nonempty_string, !nonzero_duration, !ltb_length_true, nonempty_map.
  simpl In. tauto.
Qed.

(** X1.  What the OTLP configuration passes.  [getOptions] panics exactly
    when one of the retry options is nil.  Otherwise it returns a list with
    no option in it twice and at most eleven options, in which an option
    occurs exactly when its field is not at its zero value, with the value of
    the field; for [RetryOptions] that is the one [WithRetry] option, with
    the configuration the loop over them has built. *)
Theorem otlp_options_membership (o : OtlpGrpcSpanExporterConfig.t) :
  match getOptions o with
  | Panicked => In None (RetryOptions o)
  | Returned options =>
      ~ In None (RetryOptions o)
      /\ List.NoDup options
      /\ length options <= 11
      /\ exists rc,
           applyRetryOptions (RetryOptions o) zeroRetryConfig = Returned rc
           /\ forall opt,
                In opt options <->
    (Compressor o <> EmptyString /\ opt = otlptracegrpc.WithCompressor (Compressor o))
    \/ (DialOptions o <> [] /\ opt = otlptracegrpc.WithDialOption (DialOptions o))
    \/ (Endpoint o <> EmptyString /\ opt = otlptracegrpc.WithEndpoint (Endpoint o))
    \/ (exists c, GrpcConn o = Some c /\ opt = otlptracegrpc.WithGRPCConn c)
    \/ (Headers o <> ∅ /\ opt = otlptracegrpc.WithHeaders (Headers o))
    \/ (Insecure o = true /\ opt = otlptracegrpc.WithInsecure)
    \/ (ReconnectionPeriod o <> 0%Z /\
        opt = otlptracegrpc.WithReconnectionPeriod (ReconnectionPeriod o))
    \/ (RetryOptions o <> [] /\ opt = otlptracegrpc.WithRetry rc)
    \/ (ServiceConfig o <> EmptyString /\
        opt = otlptracegrpc.WithServiceConfig (ServiceConfig o))
    \/ (exists creds, TlsCredentials o = Some creds /\
        opt = otlptracegrpc.WithTLSCredentials creds)
    \/ (Timeout o <> 0%Z /\ opt = otlptracegrpc.WithTimeout (Timeout o))
  end.
Proof.
  rewrite getOptions_outcome.
  destruct (applyRetryOptions (RetryOptions o) zeroRetryConfig) as [rc |] eqn:E.
  - split; [| split; [| split]].
    + intro H. apply (applyRetryOptions_panics _ zeroRetryConfig) in H. congruence.
    + apply passedOptions_NoDup.
    + apply passedOptions_length.
    + exists rc. split; [reflexivity |]. apply in_passedOptions.
  - apply applyRetryOptions_panics in E. exact E.
Qed.

Lemma step_keeps_dial {T : Type} (field : otlptracegrpc.dialing -> T) cond x cfg :
  (forall cfg', field (otlptracegrpc.Dialing (otlptracegrpc.apply cfg' x)) =
                field (otlptracegrpc.Dialing cfg')) ->
  field (otlptracegrpc.Dialing (step cond x cfg)) = field (otlptracegrpc.Dialing cfg).
Proof. intro H. destruct cond; simpl; auto. Qed.

Lemma stepSome_keeps_dial {A T : Type} (field : otlptracegrpc.dialing -> T)
  (p : option A) f cfg :
  (forall v cfg', field (otlptracegrpc.Dialing (otlptracegrpc.apply cfg' (f v))) =
                  field (otlptracegrpc.Dialing cfg')) ->
  field (otlptracegrpc.Dialing (stepSome p f cfg)) = field (otlptracegrpc.Dialing cfg).
Proof. intro H. destruct p; simpl; auto. Qed.

Ltac skip_dial field :=
  repeat first
    [ rewrite (step_keeps_dial field) by (intro; reflexivity)
    | rewrite (stepSome_keeps_dial field) by (intros; reflexivity) ].

Lemma eqb_empty (x : string) : String.eqb x EmptyString = true -> EmptyString = x.
Proof. intro H. apply String.eqb_eq in H. congruence. Qed.

Lemma dial_Endpoint (o : OtlpGrpcSpanExporterConfig.t)
  (rc : otlptracegrpc.RetryConfig) :
  otlptracegrpc.Endpoint (otlptracegrpc.Dialing (otlptracegrpc.newConfig (passedOptions o rc))) =
    if String.eqb (Endpoint o) EmptyString then "localhost:4317" else Endpoint o.
Proof.
  rewrite resolved. skip_dial otlptracegrpc.Endpoint.
  destruct (String.eqb (Endpoint o) EmptyString); simpl; [| reflexivity].
  skip_dial otlptracegrpc.Endpoint. reflexivity.
Qed.

Lemma dial_Insecure (o : OtlpGrpcSpanExporterConfig.t)
  (rc : otlptracegrpc.RetryConfig) :
  otlptracegrpc.Insecure (otlptracegrpc.Dialing (otlptracegrpc.newConfig (passedOptions o rc))) =
    Insecure o.
Proof.
  rewrite resolved. skip_dial otlptracegrpc.Insecure.
  destruct (Insecure o); simpl; [reflexivity |].
  skip_dial otlptracegrpc.Insecure. reflexivity.
Qed.

Lemma dial_Credentials (o : OtlpGrpcSpanExporterConfig.t)
  (rc : otlptracegrpc.RetryConfig) :
  otlptracegrpc.GRPCCredentials
    (otlptracegrpc.Dialing (otlptracegrpc.newConfig (passedOptions o rc))) = TlsCredentials o.
Proof.
  rewrite resolved. skip_dial otlptracegrpc.GRPCCredentials.
  destruct (TlsCredentials o); simpl; [reflexivity |].
  skip_dial otlptracegrpc.GRPCCredentials. reflexivity.
Qed.

Lemma dial_Compression (o : OtlpGrpcSpanExporterConfig.t)
  (rc : otlptracegrpc.RetryConfig) :
  otlptracegrpc.Compression
    (otlptracegrpc.Dialing (otlptracegrpc.newConfig (passedOptions o rc))) = Compressor o.
Proof.
  rewrite resolved. skip_dial otlptracegrpc.Compression.
  destruct (String.eqb (Compressor o) EmptyString) eqn:E; simpl; [| reflexivity].
  apply eqb_empty. exact E.
Qed.

Lemma dial_ServiceConfig (o : OtlpGrpcSpanExporterConfig.t)
  (rc : otlptracegrpc.RetryConfig) :
  otlptracegrpc.ServiceConfig
    (otlptracegrpc.Dialing (otlptracegrpc.newConfig (passedOptions o rc))) = ServiceConfig o.
Proof.
  rewrite resolved. skip_dial otlptracegrpc.ServiceConfig.
  destruct (String.eqb (ServiceConfig o) EmptyString) eqn:E; simpl; [| reflexivity].
  skip_dial otlptracegrpc.ServiceConfig. apply eqb_empty. exact E.
Qed.

Lemma dial_ReconnectionPeriod (o : OtlpGrpcSpanExporterConfig.t)
  (rc : otlptracegrpc.RetryConfig) :
  otlptracegrpc.ReconnectionPeriod
    (otlptracegrpc.Dialing (otlptracegrpc.newConfig (passedOptions o rc))) = ReconnectionPeriod o.
Proof.
  rewrite resolved. skip_dial otlptracegrpc.ReconnectionPeriod.
  destruct (Z.eqb_spec (ReconnectionPeriod o) 0) as [E | E]; simpl; [| reflexivity].
  skip_dial otlptracegrpc.ReconnectionPeriod. simpl. congruence.
Qed.

Lemma dial_DialOptions (o : OtlpGrpcSpanExporterConfig.t)
  (rc : otlptracegrpc.RetryConfig) :
  otlptracegrpc.DialOptions
    (otlptracegrpc.Dialing (otlptracegrpc.newConfig (passedOptions o rc))) = DialOptions o.
Proof.
  rewrite resolved. skip_dial otlptracegrpc.DialOptions.
  destruct (DialOptions o) eqn:E; simpl; [| reflexivity].
  skip_dial otlptracegrpc.DialOptions. reflexivity.
Qed.

Lemma dialing_eta (d : otlptracegrpc.dialing) :
  d = {| otlptracegrpc.Endpoint := otlptracegrpc.Endpoint d;
         otlptracegrpc.Insecure := otlptracegrpc.Insecure d;
         otlptracegrpc.GRPCCredentials := otlptracegrpc.GRPCCredentials d;
         otlptracegrpc.Compression := otlptracegrpc.Compression d;
         otlptracegrpc.ServiceConfig := otlptracegrpc.ServiceConfig d;
         otlptracegrpc.ReconnectionPeriod := otlptracegrpc.ReconnectionPeriod d;
         otlptracegrpc.DialOptions := otlptracegrpc.DialOptions d |}.
Proof. destruct d; reflexivity. Qed.

(** The client the SDK builds for a configuration that supplies no
    connection. *)
Lemma client_of_dialled (o : OtlpGrpcSpanExporterConfig.t)
  (rc : otlptracegrpc.RetryConfig) :
  GrpcConn o = None ->
  otlptracegrpc.NewClient (passedOptions o rc) =
    {| otlptracegrpc.conn :=
         otlptracegrpc.Dialled
           {| otlptracegrpc.Endpoint :=
                if String.eqb (Endpoint o) EmptyString then "localhost:4317"
                else Endpoint o;
              otlptracegrpc.Insecure := Insecure o;
              otlptracegrpc.GRPCCredentials := TlsCredentials o;
              otlptracegrpc.Compression := Compressor o;
              otlptracegrpc.ServiceConfig := ServiceConfig o;
              otlptracegrpc.ReconnectionPeriod := ReconnectionPeriod o;
              otlptracegrpc.DialOptions := DialOptions o |};
       otlptracegrpc.metadata := Headers o;
       otlptracegrpc.exportTimeout :=
         if Z.eqb (Timeout o) 0 then (10 * Second)%Z else Timeout o;
       otlptracegrpc.retry := retryPolicy o rc |}.
Proof.
  intro H. unfold otlptracegrpc.NewClient. cbv zeta.
  rewrite resolved_GRPCConn, resolved_Headers, resolved_Timeout, resolved_Retry, H.
  rewrite (dialing_eta (otlptracegrpc.Dialing _)).
  rewrite dial_Endpoint, dial_Insecure, dial_Credentials, dial_Compression,
    dial_ServiceConfig, dial_ReconnectionPeriod, dial_DialOptions.
  reflexivity.
Qed.

(** X2.  Without a supplied connection, [newSpanExporter] panics when a
    retry option is nil, and otherwise starts an exporter that dials, and
    every field of the configuration has reached it: a field at its zero
    value is passed over, so the SDK's default stands for it (the endpoint
    localhost:4317, a timeout of ten seconds, the default retry policy). *)
Theorem otlp_zero_fields_leave_defaults (sdk : Sdk) (ctx : Context)
  (o : OtlpGrpcSpanExporterConfig.t) :
  GrpcConn o = None ->
  (In None (RetryOptions o) ->
     OtlpGrpcSpanExporterConfig.newSpanExporter sdk o ctx = Panicked)
  /\ (forall rc,
     applyRetryOptions (RetryOptions o) zeroRetryConfig = Returned rc ->
     OtlpGrpcSpanExporterConfig.newSpanExporter sdk o ctx =
       Returned
         (otlptrace_New sdk ctx
            {| otlptracegrpc.conn :=
                 otlptracegrpc.Dialled
                   {| otlptracegrpc.Endpoint :=
                        if String.eqb (Endpoint o) EmptyString then "localhost:4317"
                        else Endpoint o;
                      otlptracegrpc.Insecure := Insecure o;
                      otlptracegrpc.GRPCCredentials := TlsCredentials o;
                      otlptracegrpc.Compression := Compressor o;
                      otlptracegrpc.ServiceConfig := ServiceConfig o;
                      otlptracegrpc.ReconnectionPeriod := ReconnectionPeriod o;
                      otlptracegrpc.DialOptions := DialOptions o |};
               otlptracegrpc.metadata := Headers o;
               otlptracegrpc.exportTimeout :=
                 if Z.eqb (Timeout o) 0 then (10 * Second)%Z else Timeout o;
               otlptracegrpc.retry := retryPolicy o rc |})).
Proof.
  intro H. unfold OtlpGrpcSpanExporterConfig.newSpanExporter.
  rewrite getOptions_outcome. split.
  - intro Hnil. apply (applyRetryOptions_panics _ zeroRetryConfig) in Hnil.
    rewrite Hnil. reflexivity.
  - intros rc E. rewrite E. unfold otlptracegrpc_New. do 2 f_equal.
    apply client_of_dialled. exact H.
Qed.

(** X2 at a configuration that sets an endpoint, two retry options and a
    timeout, and at one whose second retry option is nil. *)
Lemma otlp_zero_fields_leave_defaults_witness :
  OtlpGrpcSpanExporterConfig.newSpanExporter quietSdk dialling context_Background =
    Returned
      (Ok (OtlpExporter
             {| otlptracegrpc.conn :=
                  otlptracegrpc.Dialled
                    {| otlptracegrpc.Endpoint := "collector:4317";
                       otlptracegrpc.Insecure := true;
                       otlptracegrpc.GRPCCredentials := None;
                       otlptracegrpc.Compression := EmptyString;
                       otlptracegrpc.ServiceConfig := EmptyString;
                       otlptracegrpc.ReconnectionPeriod := 0%Z;
                       otlptracegrpc.DialOptions := [] |};
                otlptracegrpc.metadata := ∅;
                otlptracegrpc.exportTimeout := (3 * Second)%Z;
                otlptracegrpc.retry :=
                  {| otlptracegrpc.Enabled := true;
                     otlptracegrpc.InitialInterval := Second;
                     otlptracegrpc.MaxInterval := 0%Z;
                     otlptracegrpc.MaxElapsedTime := 0%Z |} |}))
  /\ OtlpGrpcSpanExporterConfig.newSpanExporter quietSdk nilRetryOption
       context_Background = Panicked.
Proof.
  split.
  - rewrite (proj2 (otlp_zero_fields_leave_defaults quietSdk context_Background
                      dialling eq_refl) _ eq_refl).
    reflexivity.
  - apply (proj1 (otlp_zero_fields_leave_defaults quietSdk context_Background
                    nilRetryOption eq_refl)).
    right. left. reflexivity.
Defined.

End OtlpFields.

(** ** The resource and console option builders as translations *)

Section Translations.

Import ResourceConfig.

Lemma in_WithAttributes (r : ResourceConfig.t) (a : list attribute_KeyValue) :
  In (resource.WithAttributes a) (ResourceConfig.getOptions r) <->
    Attributes r <> [] /\ a = Attributes r.
Proof. rewrite in_getOptions. intuition congruence. Qed.

Lemma in_WithDetectors (r : ResourceConfig.t) (d : list resource.Detector) :
  In (resource.WithDetectors d) (ResourceConfig.getOptions r) <->
    detectors r <> [] /\ d = detectors r.
Proof. rewrite in_getOptions. intuition congruence. Qed.

Lemma same_collection {A : Type} (l1 l2 : list A) :
  (forall a, (l1 <> [] /\ a = l1) <-> (l2 <> [] /\ a = l2)) -> l1 = l2.
Proof.
  intro H. destruct l1 as [| x l1].
  - destruct l2 as [| y l2]; [reflexivity |].
    destruct (proj2 (H (y :: l2))) as [E _]; [split; [discriminate | reflexivity] |].
    contradict E. reflexivity.
  - destruct (proj1 (H (x :: l1))) as [_ E]; [split; [discriminate | reflexivity] |].
    exact E.
Qed.

Lemma same_flag (b1 b2 : bool) : (b1 = true <-> b2 = true) -> b1 = b2.
Proof. destruct b1, b2; intuition congruence. Qed.

(** The flag of a configuration, read off the options it yields. *)
Ltac flag_of H opt field :=
  apply same_flag;
  let K := fresh "K" in
  assert (K : forall r, In opt (ResourceConfig.getOptions r) <-> field r = true)
    by (intro; rewrite in_getOptions; intuition congruence);
  rewrite <- !K, H; reflexivity.

(** X3.  The translation of a resource configuration loses nothing: two
    configurations that yield the same option list are the same
    configuration. *)
Theorem resource_options_injective (r1 r2 : ResourceConfig.t) :
  ResourceConfig.getOptions r1 = ResourceConfig.getOptions r2 -> r1 = r2.
Proof.
  intro H.
  assert (E1 : Attributes r1 = Attributes r2).
  { apply same_collection. intro a. rewrite <- !in_WithAttributes, H. reflexivity. }
  assert (E2 : detectors r1 = detectors r2).
  { apply same_collection. intro d. rewrite <- !in_WithDetectors, H. reflexivity. }
  assert (E3 : Container r1 = Container r2) by flag_of H resource.WithContainer Container.
  assert (E4 : ContainerID r1 = ContainerID r2) by flag_of H resource.WithContainerID ContainerID.
  assert (E5 : FromEnv r1 = FromEnv r2) by flag_of H resource.WithFromEnv FromEnv.
  assert (E6 : Host r1 = Host r2) by flag_of H resource.WithHost Host.
  assert (E7 : OS r1 = OS r2) by flag_of H resource.WithOS OS.
  assert (E8 : OSDescription r1 = OSDescription r2)
    by flag_of H resource.WithOSDescription OSDescription.
  assert (E9 : OSType r1 = OSType r2) by flag_of H resource.WithOSType OSType.
  assert (E10 : Process r1 = Process r2) by flag_of H resource.WithProcess Process.
  assert (E11 : ProcessCommandArgs r1 = ProcessCommandArgs r2)
    by flag_of H resource.WithProcessCommandArgs ProcessCommandArgs.
  assert (E12 : ProcessExecutableName r1 = ProcessExecutableName r2)
    by flag_of H resource.WithProcessExecutableName ProcessExecutableName.
  assert (E13 : ProcessExecutablePath r1 = ProcessExecutablePath r2)
    by flag_of H resource.WithProcessExecutablePath ProcessExecutablePath.
  assert (E14 : ProcessOwner r1 = ProcessOwner r2) by flag_of H resource.WithProcessOwner ProcessOwner.
  assert (E15 : ProcessPID r1 = ProcessPID r2) by flag_of H resource.WithProcessPID ProcessPID.
  assert (E16 : ProcessRuntimeDescription r1 = ProcessRuntimeDescription r2)
    by flag_of H resource.WithProcessRuntimeDescription ProcessRuntimeDescription.
  assert (E17 : ProcessRuntimeName r1 = ProcessRuntimeName r2)
    by flag_of H resource.WithProcessRuntimeName ProcessRuntimeName.
  assert (E18 : ProcessRuntimeVersion r1 = ProcessRuntimeVersion r2)
    by flag_of H resource.WithProcessRuntimeVersion ProcessRuntimeVersion.
  clear H. destruct r1, r2. simpl in *. subst. reflexivity.
Qed.

(** X3 at a configuration with one detector. *)
Lemma resource_options_injective_witness : onlyDetectors = onlyDetectors.
Proof. apply (resource_options_injective onlyDetectors onlyDetectors). reflexivity. Defined.

Ltac fresh_option :=
  repeat (rewrite in_appendIf); simpl In; intuition discriminate.

(** X4.  The shape of the resource option list: the schema-URL option comes
    first and the SDK-identification option second, whatever else is
    requested; no option is passed twice; and there are at most twenty. *)
Theorem resource_options_shape (r : ResourceConfig.t) :
  (exists rest,
     ResourceConfig.getOptions r =
       [resource.WithSchemaURL semconv.SchemaURL; resource.WithTelemetrySDK] ++ rest)
  /\ List.NoDup (ResourceConfig.getOptions r)
  /\ 2 <= length (ResourceConfig.getOptions r) <= 20.
Proof.
  unfold ResourceConfig.getOptions. cbv zeta. split; [| split; [| split]].
  - repeat apply appendIf_keeps_prefix. exists []. reflexivity.
  - repeat (apply NoDup_appendIf; [| fresh_option]).
    simpl. constructor; [simpl; intuition discriminate |].
    constructor; [intros [] | constructor].
  - repeat apply length_appendIf_ge. simpl. lia.
  - repeat (apply length_appendIf). simpl. lia.
Qed.

End Translations.

(** ** The console option builder as a translation *)

(** X5.  Two console configurations yield the same options exactly when they
    agree on [PrettyPrint], on [Timestamps] and on the writer they end up
    with; so a nil [Writer] and a [Writer] pointing to standard output cannot
    be told apart. *)
Theorem console_options_equal_iff (c1 c2 : ConsoleSpanExporterConfig.t) :
  ConsoleSpanExporterConfig.getOptions c1 = ConsoleSpanExporterConfig.getOptions c2 <->
    ConsoleSpanExporterConfig.PrettyPrint c1 = ConsoleSpanExporterConfig.PrettyPrint c2
    /\ ConsoleSpanExporterConfig.Timestamps c1 = ConsoleSpanExporterConfig.Timestamps c2
    /\ destination c1 = destination c2.
Proof.
  destruct c1 as [p1 t1 w1], c2 as [p2 t2 w2].
  unfold ConsoleSpanExporterConfig.getOptions, destination. simpl.
  destruct p1, p2, t1, t2, w1 as [w1|], w2 as [w2|]; simpl;
    split; intro H; try discriminate H;
    try (destruct H as (H1 & H2 & H3); try discriminate H1; try discriminate H2);
    try (injection H as H); subst; auto.
Qed.

(** ** Lifecycle: what initialization does and does not do *)

(** X6.  When the current [OtelInit] returns nil, the resource and the
    exporter were both built, and the provider made of them is now both in
    [tp] and registered, with the composite propagator installed.  The
    provider that was there before, if any, is replaced as it is: no flush
    and no shutdown is recorded, and [serviceName] is not touched. *)
Theorem OtelInit_success (sdk : Sdk) (startCtx : Context)
  (resourceConf : ResourceConfig.t) (exporterConfig : option SpanExporterConfig)
  (s s' : State) :
  OtelInit sdk startCtx resourceConf exporterConfig s = (Returned None, s') ->
  exists res cfg exp,
    ResourceConfig.newResource sdk resourceConf startCtx = Ok res
    /\ exporterConfig = Some cfg
    /\ newSpanExporter sdk cfg startCtx = Returned (Ok exp)
    /\ tp s' = Some (NewTracerProvider exp res)
    /\ otel_TracerProvider s' = Some (NewTracerProvider exp res)
    /\ otel_TextMapPropagator s' = installed
    /\ events s' = events s
    /\ serviceName s' = serviceName s.
Proof.
  unfold OtelInit.
  destruct (ResourceConfig.newResource sdk resourceConf startCtx) as [res | err];
    [| discriminate].
  destruct exporterConfig as [cfg |]; [| discriminate].
  destruct (newSpanExporter sdk cfg startCtx) as [[exp | err] |] eqn:E;
    [| discriminate | discriminate].
  intros [= <-]. exists res, cfg, exp. simpl. repeat split. exact E.
Qed.

(** X6 at a second initialization, which replaces the console exporter of
    the first by an OTLP exporter. *)
Lemma OtelInit_success_witness :
  let s1 := snd (OtelInit quietSdk context_Background zeroResourceConfig
                   (Some (Console plainConsole)) initialState) in
  let s2 := snd (OtelInit quietSdk context_Background zeroResourceConfig
                   (Some (OtlpGrpc suppliedOnly)) s1) in
  exists res cfg exp,
    ResourceConfig.newResource quietSdk zeroResourceConfig context_Background = Ok res
    /\ Some (OtlpGrpc suppliedOnly) = Some cfg
    /\ newSpanExporter quietSdk cfg context_Background = Returned (Ok exp)
    /\ tp s2 = Some (NewTracerProvider exp res)
    /\ otel_TracerProvider s2 = Some (NewTracerProvider exp res)
    /\ otel_TextMapPropagator s2 = installed
    /\ events s2 = events s1
    /\ serviceName s2 = serviceName s1.
Proof.
  cbv zeta.
  apply (OtelInit_success quietSdk context_Background zeroResourceConfig
           (Some (OtlpGrpc suppliedOnly))).
  reflexivity.
Defined.

Lemma console_is_not_file (otelExporter : string) :
  String.eqb otelExporter consoleExporter = true ->
  String.eqb otelExporter fileExporter = false.
Proof. intro H. apply String.eqb_eq in H. subst. reflexivity. Qed.

Lemma finish_events (built : result SpanExporter) (res : resource.Resource) (s : State) :
  events (snd (Legacy.finish built res s)) = events s.
Proof. destruct built; reflexivity. Qed.

(** X7.  Initialization never flushes or shuts a provider down, whether it
    succeeds or fails.  The current [OtelInit] records no call at all.  The
    legacy one records the creation of the file exactly when the resource was
    built, the kind is "file" and [os.Create] succeeded, whether or not the
    exporter can then be built on it. *)
Theorem initialization_events (sdk : Sdk) (s : State) :
  (forall startCtx resourceConf exporterConfig,
     events (snd (OtelInit sdk startCtx resourceConf exporterConfig s)) = events s)
  /\ (forall name otelExporter,
     let fname := viper_GetString sdk "OTEL_FILE_SPAN_EXPORTER_NAME" in
     let created :=
       match Legacy.newResource sdk, os_Create_failure sdk fname with
       | Ok _, None => String.eqb otelExporter fileExporter
       | _, _ => false
       end in
     events (snd (Legacy.OtelInit sdk name otelExporter s)) =
       events s ++ (if created then [EvCreate fname] else [])).
Proof.
  split.
  - intros startCtx rc ec. unfold OtelInit.
    destruct (ResourceConfig.newResource sdk rc startCtx); [| reflexivity].
    destruct ec as [cfg |]; [| reflexivity].
    destruct (newSpanExporter sdk cfg startCtx) as [[exp | err] |]; reflexivity.
  - intros name kind. cbv zeta. unfold Legacy.OtelInit.
    destruct (Legacy.newResource sdk) as [res | err];
      [| simpl; rewrite app_nil_r; reflexivity].
    destruct (String.eqb kind consoleExporter) eqn:Ec.
    { rewrite finish_events, (console_is_not_file kind Ec).
      destruct (os_Create_failure sdk _); simpl; rewrite app_nil_r; reflexivity. }
    destruct (String.eqb kind fileExporter).
    { destruct (os_Create_failure sdk _).
      - simpl. rewrite app_nil_r. reflexivity.
      - rewrite finish_events. reflexivity. }
    destruct (String.eqb kind otlpExporter).
    { rewrite finish_events.
      destruct (os_Create_failure sdk _); simpl; rewrite app_nil_r; reflexivity. }
    destruct (os_Create_failure sdk _); simpl; rewrite app_nil_r; reflexivity.
Qed.

(** ** Lifecycle: teardown, again and again *)

Lemma OtelEnd_keeps (sdk : Sdk) (endCtx : Context) (s : State) (p : TracerProvider) :
  tp s = Some p ->
  exists r s',
    OtelEnd sdk endCtx s = (Returned r, s')
    /\ tp s' = Some p
    /\ otel_TracerProvider s' = otel_TracerProvider s
    /\ otel_TextMapPropagator s' = otel_TextMapPropagator s
    /\ serviceName s' = serviceName s
    /\ length (List.filter isForceFlush (events s')) =
         S (length (List.filter isForceFlush (events s))).
Proof.
  intro Htp. unfold OtelEnd, ForceFlush, Shutdown. rewrite Htp.
  destruct (ForceFlush_result sdk p (events s)) as [err |].
  - exists (Some err), (logEvent (EvForceFlush p) s).
    repeat split; [exact Htp |].
    cbn [events logEvent]. rewrite List.filter_app, length_app. simpl. lia.
  - eexists _, (logEvent (EvShutdown p) (logEvent (EvForceFlush p) s)).
    repeat split; [exact Htp |].
    cbn [events logEvent]. rewrite !List.filter_app, !length_app. simpl. lia.
Qed.

(** X8.  [OtelEnd] leaves [tp] and the registrations as they are.  So once a
    provider is in [tp], any number of calls of [OtelEnd] in a row all
    return, none panics, and each of them flushes the provider once more. *)
Theorem OtelEnd_again (sdk : Sdk) (endCtx : Context) (n : nat) (s : State)
  (p : TracerProvider) :
  tp s = Some p ->
  let (outcomes, s') := endTimes sdk endCtx n s in
  length outcomes = n
  /\ Forall (fun o => o <> Panicked) outcomes
  /\ tp s' = Some p
  /\ otel_TracerProvider s' = otel_TracerProvider s
  /\ otel_TextMapPropagator s' = otel_TextMapPropagator s
  /\ length (List.filter isForceFlush (events s')) =
       length (List.filter isForceFlush (events s)) + n.
Proof.
  revert s. induction n as [| n IH]; intros s Htp.
  - simpl. repeat split; [constructor | exact Htp | lia].
  - simpl.
    destruct (OtelEnd_keeps sdk endCtx s p Htp)
      as (r & s1 & E & Htp1 & Hreg & Hprop & _ & Hflush).
    rewrite E. specialize (IH s1 Htp1).
    destruct (endTimes sdk endCtx n s1) as [outcomes s2].
    destruct IH as (Hlen & Hall & Htp2 & Hreg2 & Hprop2 & Hflush2).
    repeat split.
    + simpl. lia.
    + constructor; [discriminate | exact Hall].
    + exact Htp2.
    + congruence.
    + congruence.
    + lia.
Qed.

(** X8 at three calls after a successful initialization. *)
Lemma OtelEnd_again_witness :
  let s := snd (OtelInit quietSdk context_Background zeroResourceConfig
                  (Some (Console plainConsole)) initialState) in
  let (outcomes, s') := endTimes quietSdk context_Background 3 s in
  length outcomes = 3
  /\ Forall (fun o => o <> Panicked) outcomes
  /\ tp s' = tp s
  /\ otel_TracerProvider s' = otel_TracerProvider s
  /\ otel_TextMapPropagator s' = otel_TextMapPropagator s
  /\ length (List.filter isForceFlush (events s')) =
       length (List.filter isForceFlush (events s)) + 3.
Proof.
  cbv zeta.
  apply (OtelEnd_again quietSdk context_Background 3
           (snd (OtelInit quietSdk context_Background zeroResourceConfig
                   (Some (Console plainConsole)) initialState))).
  reflexivity.
Defined.

(** ** The legacy initializer: where the name goes *)

Lemma legacy_init_name (sdk : Sdk) (name other otelExporter : string) (s : State) :
  Legacy.OtelInit sdk name otelExporter s =
    (fst (Legacy.OtelInit sdk other otelExporter s),
     Legacy.setServiceName name (snd (Legacy.OtelInit sdk other otelExporter s))).
Proof.
  unfold Legacy.OtelInit.
  destruct (Legacy.newResource sdk) as [res | err]; [| reflexivity].
  destruct (String.eqb otelExporter consoleExporter).
  { destruct (Legacy.newConsoleExporter sdk os_Stdout); reflexivity. }
  destruct (String.eqb otelExporter fileExporter).
  { destruct (os_Create_failure sdk _); [reflexivity |].
    destruct (Legacy.newConsoleExporter sdk _); reflexivity. }
  destruct (String.eqb otelExporter otlpExporter); [| reflexivity].
  destruct (Legacy.newOtlpExporter sdk); reflexivity.
Qed.

(** X9.  The tracer that the legacy [StartSpan] asks for is named after the
    name given to the most recent call of [OtelInit], whether that call
    succeeded or failed; the provider it comes from is the registered one. *)
Theorem legacy_tracer_name (sdk : Sdk) (calls : list (string * string))
  (name otelExporter : string) (s : State) (parentCtx : Context) (spanName : string)
  (opts : list SpanStartOption) :
  let s' := legacyInits sdk (calls ++ [(name, otelExporter)]) s in
  let started := Legacy.StartSpan s' parentCtx spanName opts in
  tracer_name (span_tracer started) = name
  /\ tracer_provider (span_tracer started) = otel_TracerProvider s'.
Proof.
  cbv zeta. unfold legacyInits. rewrite fold_left_app. simpl.
  set (s0 := fold_left _ calls s).
  rewrite (legacy_init_name sdk name EmptyString otelExporter s0). simpl.
  split; reflexivity.
Qed.

(** X10.  The name given to the legacy [OtelInit] reaches [serviceName] and
    nothing else: the outcome of the call, the provider it installs, the
    propagator and the recorded calls are the same for every name. *)
Theorem legacy_name_only_names (sdk : Sdk) (name other otelExporter : string)
  (s : State) :
  let r1 := Legacy.OtelInit sdk name otelExporter s in
  let r2 := Legacy.OtelInit sdk other otelExporter s in
  fst r1 = fst r2
  /\ tp (snd r1) = tp (snd r2)
  /\ otel_TracerProvider (snd r1) = otel_TracerProvider (snd r2)
  /\ otel_TextMapPropagator (snd r1) = otel_TextMapPropagator (snd r2)
  /\ events (snd r1) = events (snd r2)
  /\ serviceName (snd r1) = name.
Proof.
  cbv zeta. rewrite (legacy_init_name sdk name other otelExporter s). simpl.
  repeat split.
Qed.

(** ** The legacy OTLP exporter beside the current one *)

(** X11.  The legacy OTLP exporter is started under a fresh context with a
    deadline of five seconds; it always passes the configured endpoint and
    disables transport security.  For a configured endpoint that is not empty
    it is the exporter the current configuration builds from the same
    endpoint and [Insecure] when that one is started under such a context.
    For an empty one the legacy exporter dials the empty endpoint, where the
    current configuration passes no endpoint and the SDK's default stands. *)
Theorem legacy_otlp_beside_current (sdk : Sdk) :
  let endpoint := viper_GetString sdk "OTEL_EXPORTER_OTLP_ENDPOINT" in
  Legacy.newOtlpExporter sdk =
    otlptrace_New sdk fiveSeconds
      {| otlptracegrpc.conn :=
           otlptracegrpc.Dialled
             {| otlptracegrpc.Endpoint := endpoint;
                otlptracegrpc.Insecure := true;
                otlptracegrpc.GRPCCredentials := None;
                otlptracegrpc.Compression := EmptyString;
                otlptracegrpc.ServiceConfig := EmptyString;
                otlptracegrpc.ReconnectionPeriod := 0%Z;
                otlptracegrpc.DialOptions := [] |};
         otlptracegrpc.metadata := ∅;
         otlptracegrpc.exportTimeout := (10 * Second)%Z;
         otlptracegrpc.retry := otlptracegrpc.DefaultRetryConfig |}
  /\ (endpoint <> EmptyString ->
      OtlpGrpcSpanExporterConfig.newSpanExporter sdk (insecureTo endpoint) fiveSeconds =
        Returned (Legacy.newOtlpExporter sdk))
  /\ ((forall ctx c, otlptrace_failure sdk ctx c = None) ->
      dialledEndpoint (Legacy.newOtlpExporter sdk) = Some endpoint)
  /\ ((forall ctx c, otlptrace_failure sdk ctx c = None) ->
      endpoint = EmptyString ->
      forall ctx exp,
        OtlpGrpcSpanExporterConfig.newSpanExporter sdk (insecureTo endpoint) ctx =
          Returned exp ->
        dialledEndpoint exp = Some "localhost:4317").
Proof.
  cbv zeta. split; [reflexivity | split; [| split]].
  - intro H.
    rewrite (proj2 (otlp_zero_fields_leave_defaults sdk fiveSeconds (insecureTo _)
                      eq_refl) _ eq_refl).
    apply String.eqb_neq in H.
    cbn [insecureTo OtlpGrpcSpanExporterConfig.Endpoint]. rewrite H. reflexivity.
  - intro Hok. unfold Legacy.newOtlpExporter, otlptrace_New. cbv zeta.
    rewrite Hok. reflexivity.
  - intros Hok He ctx exp E.
    rewrite (proj2 (otlp_zero_fields_leave_defaults sdk ctx (insecureTo _)
                      eq_refl) _ eq_refl) in E.
    injection E as <-. unfold otlptrace_New. rewrite Hok, He. reflexivity.
Qed.

(** X11 with a collector configured, and with none. *)
Lemma legacy_otlp_beside_current_witness :
  OtlpGrpcSpanExporterConfig.newSpanExporter configuredSdk
    (insecureTo "collector:4317") fiveSeconds =
    Returned (Legacy.newOtlpExporter configuredSdk)
  /\ dialledEndpoint (Legacy.newOtlpExporter quietSdk) = Some EmptyString
  /\ dialledEndpoint
       (otlptracegrpc_New quietSdk context_Background
          (passedOptions (insecureTo EmptyString)
             OtlpGrpcSpanExporterConfig.zeroRetryConfig)) = Some "localhost:4317".
Proof.
  destruct (legacy_otlp_beside_current configuredSdk) as (_ & H1 & _ & _).
  destruct (legacy_otlp_beside_current quietSdk) as (_ & _ & H2 & H3).
  split; [apply H1; discriminate |].
  split; [apply H2; reflexivity |].
  apply (H3 (fun _ _ => eq_refl) eq_refl context_Background). reflexivity.
Defined.

(** ** span.go: the calls made on a span *)

Lemma recordAll_calls (calls : Span) (errs : list error) :
  recordAll (Some (Some calls)) errs = Some (Some (calls ++ flat_map errorCalls errs)).
Proof.
  revert calls. induction errs as [| e errs IH]; intro calls.
  - simpl. rewrite app_nil_r. reflexivity.
  - simpl. rewrite IH, <- !app_assoc. reflexivity.
Qed.

(** X12.  On a live span, [Error] records the error and then sets the status
    to Error with the message of that error as description.  Calling it for
    several errors records every one of them, in order, so the exception
    events accumulate; a call of [StatusOK] afterwards adds one status call,
    Ok with the empty description, after all of them. *)
Theorem errors_accumulate (calls : Span) (errs : list error) :
  let span := recordAll (Some (Some calls)) errs in
  span = Some (Some (calls ++ flat_map errorCalls errs))
  /\ StatusOK span =
       (Returned tt,
        Some (Some ((calls ++ flat_map errorCalls errs)
                    ++ [CallSetStatus codes.Ok EmptyString])))
  /\ length (flat_map errorCalls errs) = 2 * length errs
  /\ (forall e, In (CallRecordError (Some e)) (flat_map errorCalls errs) <-> In e errs)
  /\ (forall e d, In (CallSetStatus e d) (flat_map errorCalls errs) <->
        e = codes.Error /\ In d errs).
Proof.
  cbv zeta. rewrite recordAll_calls.
  split; [reflexivity | split; [reflexivity | split; [| split]]].
  - induction errs as [| e errs IH]; simpl; [reflexivity | lia].
  - intro e. rewrite in_flat_map. unfold errorCalls. simpl. split.
    + intros (x & Hx & [H | [H | []]]); [congruence | discriminate].
    + intro H. exists e. auto.
  - intros e d. rewrite in_flat_map. unfold errorCalls. simpl. split.
    + intros (x & Hx & [H | [H | []]]); [discriminate |].
      injection H as <- <-. auto.
    + intros [-> H]. exists d. auto.
Qed.

(** X13.  [Error] panics exactly when the span pointer is nil, the span it
    points to is nil, or the error is nil.  With a nil error on a live span
    the error has been handed to [RecordError] by then and the status is
    never set.  [StatusOK] panics exactly when the pointer or the span is
    nil. *)
Theorem span_helpers_panic (span : option (option Span)) (err : option error) :
  (fst (Error span err) = Panicked <->
     span = None \/ span = Some None \/ err = None)
  /\ (forall calls,
        span = Some (Some calls) -> err = None ->
        snd (Error span err) = Some (Some (calls ++ [CallRecordError None])))
  /\ (fst (StatusOK span) = Panicked <-> span = None \/ span = Some None).
Proof.
  destruct span as [[calls |] |], err as [msg |]; simpl;
    repeat split; intros; subst; auto; try discriminate;
    try (intuition discriminate);
    try (injection H as <-; reflexivity).
Qed.

(** X13 on a live span that has received nothing yet. *)
Lemma span_helpers_panic_witness :
  snd (Error (Some (Some [])) None) = Some (Some [CallRecordError None]).
Proof.
  apply (proj1 (proj2 (span_helpers_panic (Some (Some [])) None)) []); reflexivity.
Defined.

(** ** GetTraceParentEnv under any propagator *)

Section AnyPropagator.

Lemma Get_after_TraceContext (ctx : Context) (carrier : gmap string string) :
  propagation.Get (propagation.TraceContext_Inject ctx carrier)
    propagation.traceparentHeader =
    if trace.IsValid (SpanContextFromContext ctx)
    then propagation.traceparent (SpanContextFromContext ctx)
    else propagation.Get carrier propagation.traceparentHeader.
Proof.
  unfold propagation.TraceContext_Inject. cbv zeta.
  destruct (trace.IsValid (SpanContextFromContext ctx)); cbn [negb]; [| reflexivity].
  unfold propagation.Get. rewrite lookup_insert_eq. reflexivity.
Qed.

Lemma Get_after_Baggage (ctx : Context) (carrier : gmap string string) :
  propagation.Get (propagation.Baggage_Inject ctx carrier)
    propagation.traceparentHeader =
    propagation.Get carrier propagation.traceparentHeader.
Proof.
  unfold propagation.Baggage_Inject.
  destruct (String.eqb (ctx_baggage ctx) EmptyString); [reflexivity |].
  unfold propagation.Get. rewrite lookup_insert_ne by discriminate. reflexivity.
Qed.

Lemma Get_after_all (ctx : Context) (ps : list propagation.Propagator)
  (carrier : gmap string string) :
  propagation.Get (fold_left (propagation.inject1 ctx) ps carrier)
    propagation.traceparentHeader =
    if existsb isTraceContext ps && trace.IsValid (SpanContextFromContext ctx)
    then propagation.traceparent (SpanContextFromContext ctx)
    else propagation.Get carrier propagation.traceparentHeader.
Proof.
  revert carrier. induction ps as [| p ps IH]; intro carrier; [reflexivity |].
  cbn [fold_left existsb]. rewrite IH.
  destruct p; cbn [propagation.inject1 isTraceContext orb].
  - rewrite Get_after_TraceContext.
    destruct (existsb isTraceContext ps), (trace.IsValid (SpanContextFromContext ctx));
      reflexivity.
  - rewrite Get_after_Baggage. reflexivity.
Qed.

(** X14.  Whatever the process-wide propagator and the context are,
    [GetTraceParentEnv] returns [TRACEPARENT=] followed by one value: the
    traceparent header of the context's span context when the propagator
    includes the trace-context propagator and that span context is valid,
    and nothing otherwise.  Baggage and trace state never show in it, and
    both versions of the function agree. *)
Theorem GetTraceParentEnv_value (s : State) (ctx : Context) :
  let sc := SpanContextFromContext ctx in
  let value :=
    if injectsTraceContext (otel_TextMapPropagator s) && trace.IsValid sc
    then propagation.traceparent sc
    else EmptyString in
  GetTraceParentEnv s ctx = ("TRACEPARENT=" ++ value)%string
  /\ Legacy.GetTraceParentEnv s ctx = GetTraceParentEnv s ctx.
Proof.
  cbv zeta. split; [| reflexivity].
  unfold GetTraceParentEnv. cbv zeta. rewrite ToLower_traceParent.
  destruct (otel_TextMapPropagator s) as [| ps];
    cbn [propagation.Inject injectsTraceContext].
  - cbn [andb]. unfold propagation.Get. rewrite lookup_empty. reflexivity.
  - rewrite Get_after_all.
    destruct (existsb isTraceContext ps && trace.IsValid (SpanContextFromContext ctx));
      [reflexivity |].
    unfold propagation.Get. rewrite lookup_empty. reflexivity.
Qed.

End AnyPropagator.

(** ** Retry options in sequence *)

Lemma applyRetryOptions_cons (st : RetrySetting) (l : list RetrySetting)
  (rc : otlptracegrpc.RetryConfig) :
  OtlpGrpcSpanExporterConfig.applyRetryOptions (retryOptions (st :: l)) rc =
    OtlpGrpcSpanExporterConfig.applyRetryOptions (retryOptions l) (retryOption st rc).
Proof. reflexivity. Qed.

(** X15.  When several retry options are given, none of them nil, the loop
    over them returns, and each field of the retry configuration ends up
    with the value of the last option that sets it; a field that no option
    sets keeps the value it started with, and options for different fields
    do not disturb each other. *)
Theorem retry_last_setting_wins (l : list RetrySetting) (rc : otlptracegrpc.RetryConfig) :
  exists r,
    OtlpGrpcSpanExporterConfig.applyRetryOptions (retryOptions l) rc = Returned r
    /\ otlptracegrpc.Enabled r = default (otlptracegrpc.Enabled rc) (lastOf pickEnabled l)
    /\ otlptracegrpc.InitialInterval r =
         default (otlptracegrpc.InitialInterval rc) (lastOf pickInitialInterval l)
    /\ otlptracegrpc.MaxInterval r =
         default (otlptracegrpc.MaxInterval rc) (lastOf pickMaxInterval l)
    /\ otlptracegrpc.MaxElapsedTime r =
         default (otlptracegrpc.MaxElapsedTime rc) (lastOf pickMaxElapsedTime l).
Proof.
  revert rc. induction l as [| st l IH]; intro rc.
  - exists rc. repeat split.
  - rewrite applyRetryOptions_cons.
    destruct (IH (retryOption st rc)) as (r & E & H1 & H2 & H3 & H4).
    exists r. split; [exact E |].
    rewrite H1, H2, H3, H4. cbn [lastOf].
    destruct (lastOf pickEnabled l), (lastOf pickInitialInterval l),
      (lastOf pickMaxInterval l), (lastOf pickMaxElapsedTime l);
      destruct st; repeat split.
Qed.
